(** * Bodyshop slicing service: the plane-normal transform, the per-locator
      batch loop of [slice_obj.py] and the [/slice] handler of [app.py].

    Numbers.  The Python code computes with IEEE doubles through numpy.  The
    embedding reads every arithmetic operation at its exact value in the
    real numbers ([R] of the Standard Library, with its [cos], [sin], [sqrt]
    and [PI]); rounding, NaN and infinities are outside the model.

    Effects.  Everything the code asks of the outside world (the random
    generator, the file system, PyVista) is a field of the interface
    [External]; every such call that changes or consumes the world is
    recorded in a history, which is threaded as state and which the
    outcomes of later calls may depend on. *)

From Stdlib Require Import Reals Lra Ascii.
From stdpp Require Import gmap strings list pretty.

(** ** numpy vectors and the two geometric helpers *)

Module Geometry.

Local Open Scope R_scope.

(** A length-3 [np.array] of floats. *)
Record vec3 : Type := V3 { vx : R; vy : R; vz : R }.

(** A 3x3 [np.array], row by row. *)
Record mat3 : Type := M3 { row0 : vec3; row1 : vec3; row2 : vec3 }.

Definition dot (a b : vec3) : R :=
  vx a * vx b + vy a * vy b + vz a * vz b.

(** [m @ v] *)
Definition matvec (m : mat3) (v : vec3) : vec3 :=
  V3 (dot (row0 m) v) (dot (row1 m) v) (dot (row2 m) v).

(** [np.deg2rad] *)
Definition deg2rad (d : R) : R := d * (PI / 180).

(** [np.linalg.norm] of a vector *)
Definition linalg_norm (v : vec3) : R :=
  sqrt (vx v * vx v + vy v * vy v + vz v * vz v).

(** [v / s] *)
Definition vdiv (v : vec3) (s : R) : vec3 :=
  V3 (vx v / s) (vy v / s) (vz v / s).

(** [np.cross] *)
Definition cross (a b : vec3) : vec3 :=
  V3 (vy a * vz b - vz a * vy b)
     (vz a * vx b - vx a * vz b)
     (vx a * vy b - vy a * vx b).

#[global] Instance Rle_decision (x y : R) : Decision (x <= y) := Rle_dec x y.
#[global] Instance Rlt_decision (x y : R) : Decision (x < y) := Rlt_dec x y.

(** [np.allclose(a, b)] with numpy's defaults [rtol=1e-05], [atol=1e-08]:
    every component satisfies [|a - b| <= atol + rtol * |b|]. *)
Definition rtol : R := 1e-5.
Definition atol : R := 1e-8.

Definition isclose (a b : R) : bool :=
  bool_decide (Rabs (a - b) <= atol + rtol * Rabs b).

Definition allclose (a b : vec3) : bool :=
  isclose (vx a) (vx b) && isclose (vy a) (vy b) && isclose (vz a) (vz b).

(** slice_obj.py, lines 104-117. *)
Definition calculate_camera_up_vector (plane_normal : vec3) : vec3 :=
  if allclose plane_normal (V3 0 0 1) || allclose plane_normal (V3 0 0 (-1))
  then V3 0 1 0
  else if allclose plane_normal (V3 0 1 0) || allclose plane_normal (V3 0 (-1) 0)
  then V3 0 0 1
  else
    let z_axis := V3 0 0 1 in
    let up := cross plane_normal z_axis in
    let up := if bool_decide (linalg_norm up < 1e-6) then V3 0 1 0 else up in
    vdiv up (linalg_norm up).

(** slice_obj.py, lines 148-149: the last two lines of
    [calculate_plane_normal], on the rotated vector. *)
Definition normalize_or_z (normal_vec : vec3) : vec3 :=
  let norm := linalg_norm normal_vec in
  if bool_decide (0 < norm) then vdiv normal_vec norm else V3 0 0 1.

(** The matrix built at lines 132-136, as a function of the angle in
    radians. *)
Definition rot_mat_y (rad_ry : R) : mat3 :=
  M3 (V3 (cos rad_ry) 0 (sin rad_ry))
     (V3 0 1 0)
     (V3 (- sin rad_ry) 0 (cos rad_ry)).

(** The matrix built at lines 141-145. *)
Definition rot_mat_x (rad_rx : R) : mat3 :=
  M3 (V3 1 0 0)
     (V3 0 (cos rad_rx) (- sin rad_rx))
     (V3 0 (sin rad_rx) (cos rad_rx)).

(** slice_obj.py, lines 121-149.  [rz_deg] is a parameter of the Python
    function and is not read by its body. *)
Definition calculate_plane_normal (rx_deg ry_deg rz_deg : R) : vec3 :=
  let normal_vec := V3 0 0 1 in
  let rad_ry := deg2rad ry_deg in
  let normal_vec := matvec (rot_mat_y rad_ry) normal_vec in
  let rad_rx := deg2rad rx_deg in
  let normal_vec := matvec (rot_mat_x rad_rx) normal_vec in
  normalize_or_z normal_vec.


End Geometry.

(** ** slice_obj.py: the outside world, one slice, the batch loop *)

Module SliceObj.

Import Geometry.

(** A call the code makes that consumes or changes the outside world.
    The event is recorded when the call is made, whatever its outcome. *)
Inductive event : Type :=
| EvRandint (n : nat)
    (** [np.random.randint(1000)] was drawn and gave [n] *)
| EvReadMesh (path : string)
    (** lines 23-39: the file was read, copied to a temporary file, given
        to [pv.read], and the temporary file removed *)
| EvSlice (normal origin : vec3)
    (** line 47: [mesh_pv.slice(normal=..., origin=...)] *)
| EvPlotter (focal_point position up : vec3) (parallel_scale : R)
    (** lines 74-88: an off-screen plotter was created and its camera set *)
| EvMakedirs (path : string)
    (** [os.makedirs(path, exist_ok=True)] *)
| EvScreenshot (path : string)
    (** line 93: [plotter.screenshot(path)] *)
| EvClose.
    (** line 94: [plotter.close()] *)

Definition history : Type := list event.

(** What the code does not define itself.  Every outcome may depend on
    the calls made so far.  [None] and [false] stand for a raised
    exception. *)
Class External : Type := {
  mesh : Type;
  polydata : Type;
  randint : history -> nat;
  read_mesh : history -> string -> option mesh;
  mesh_n_points : mesh -> nat;
  mesh_slice : history -> mesh -> vec3 -> vec3 -> option polydata;
  polydata_truthy : polydata -> bool;
  polydata_points : polydata -> list vec3;
  plotter_setup : history -> polydata -> vec3 -> vec3 -> vec3 -> R -> bool;
  os_makedirs : history -> string -> bool;
  plotter_screenshot : history -> string -> bool;
  plotter_close : history -> bool;
  path_exists : history -> string -> bool;
  (** [os.path.dirname(__file__)] of app.py *)
  base_dir : string
}.

(** *** State and exceptions *)

Inductive outcome (A : Type) : Type :=
| Ok (a : A)
| Raise.
Arguments Ok {A} a.
Arguments Raise {A}.

Definition M (A : Type) : Type := history -> outcome A * history.

Definition ret {A : Type} (a : A) : M A := fun h => (Ok a, h).

Definition raise {A : Type} : M A := fun h => (Raise, h).

Definition bind {A B : Type} (m : M A) (k : A -> M B) : M B :=
  fun h =>
    match m h with
    | (Ok a, h') => k a h'
    | (Raise, h') => (Raise, h')
    end.

(** [try: m  except Exception: handler] *)
Definition try_except {A : Type} (m : M A) (handler : M A) : M A :=
  fun h =>
    match m h with
    | (Ok a, h') => (Ok a, h')
    | (Raise, h') => handler h'
    end.

Notation "x <-- m ; k" := (bind m (fun x => k))
  (at level 20, m at level 100, k at level 200, only parsing).
Notation "m >>> k" := (bind m (fun _ => k))
  (at level 100, k at level 200, right associativity, only parsing).

(** An external call that returns a value or raises. *)
Definition call {A : Type} (e : event) (result : history -> option A) : M A :=
  fun h =>
    match result h with
    | Some a => (Ok a, h ++ [e])
    | None => (Raise, h ++ [e])
    end.

(** An external call made for its effect. *)
Definition call_ (e : event) (succeeds : history -> bool) : M unit :=
  call e (fun h => if succeeds h then Some tt else None).

Section WithExternal.

Context {E : External}.

Definition np_random_randint : M nat :=
  fun h => (Ok (randint h), h ++ [EvRandint (randint h)]).

(** Lines 23-39.  The inner [except] turns every failure of the read into
    [return False]; here the read answers [None] in that case and does
    not raise. *)
Definition pv_read (obj_file_path : string) : M (option mesh) :=
  fun h => (Ok (read_mesh h obj_file_path), h ++ [EvReadMesh obj_file_path]).

Definition os_path_exists (path : string) : M bool :=
  fun h => (Ok (path_exists h path), h).

End WithExternal.

(** *** Vectors and paths used by the slice *)

Definition vadd (a b : vec3) : vec3 :=
  V3 (vx a + vx b) (vy a + vy b) (vz a + vz b).

Definition vsub (a b : vec3) : vec3 :=
  V3 (vx a - vx b) (vy a - vy b) (vz a - vz b).

Definition vscale (a : vec3) (s : R) : vec3 :=
  V3 (vx a * s) (vy a * s) (vz a * s).

(** [os.path.isabs] (POSIX) *)
Definition isabs (p : string) : bool :=
  match p with
  | String "/"%char _ => true
  | _ => false
  end.

Fixpoint endswith_sep (p : string) : bool :=
  match p with
  | EmptyString => false
  | String c EmptyString => bool_decide (c = "/"%char)
  | String _ rest => endswith_sep rest
  end.

(** [os.path.join(a, b)] (POSIX) *)
Definition path_join (a b : string) : string :=
  if isabs b then b
  else if bool_decide (a = EmptyString) || endswith_sep a then a +:+ b
  else a +:+ "/" +:+ b.

Fixpoint basename_from (current p : string) : string :=
  match p with
  | EmptyString => current
  | String c rest =>
      if bool_decide (c = "/"%char) then basename_from rest rest
      else basename_from current rest
  end.

(** [os.path.basename] (POSIX): what follows the last separator. *)
Definition basename (p : string) : string := basename_from p p.

Section WithExternal.

Context {E : External}.

(** slice_obj.py, lines 11-102.  Printing is not modelled. *)
Definition create_slice_image_pyvista
    (obj_file_path : string) (plane_origin plane_normal : vec3)
    (locator_id : string) (radius : R) (output_dir : string) : M bool :=
  try_except
    (r <-- pv_read obj_file_path ;
     match r with
     | None => ret false
     | Some mesh_pv =>
         if negb (0 <? mesh_n_points mesh_pv)%nat then ret false
         else
           slice_polydata <--
             call (EvSlice plane_normal plane_origin)
                  (fun h => mesh_slice h mesh_pv plane_normal plane_origin) ;
           if negb (polydata_truthy slice_polydata)
              || (length (polydata_points slice_polydata) =? 0)%nat
           then ret true
           else
             let points := polydata_points slice_polydata in
             let distances :=
               map (fun p => linalg_norm (vsub p plane_origin)) points in
             let mask := map (fun d => bool_decide (d <= radius)%R) distances in
             let focal_point := plane_origin in
             let position :=
               vadd plane_origin
                    (vscale (vscale plane_normal radius) 0.5%R) in
             let up := calculate_camera_up_vector plane_normal in
             call_ (EvPlotter focal_point position up radius)
                   (fun h => plotter_setup h slice_polydata
                                           focal_point position up radius) >>>
             call_ (EvMakedirs output_dir)
                   (fun h => os_makedirs h output_dir) >>>
             let image_path := path_join output_dir (locator_id +:+ ".png") in
             call_ (EvScreenshot image_path)
                   (fun h => plotter_screenshot h image_path) >>>
             call_ EvClose plotter_close >>>
             ret true
     end)
    (ret false).

End WithExternal.

(** One element of [locators_data_list]: a dict in which each of the
    seven keys may be absent.  A value that is present has the type the
    data model gives it: a string for the id, a number for the rest. *)
Record locator : Type := Locator {
  loc_id : option string;
  loc_x : option R;
  loc_y : option R;
  loc_z : option R;
  loc_rx : option R;
  loc_ry : option R;
  loc_rz : option R
}.

(** [plane_origin] and [plane_normal] of the loop body, lines 160-169. *)
Definition locator_origin (loc_data : locator) : vec3 :=
  V3 (default 0%R (loc_x loc_data))
     (default 0%R (loc_y loc_data))
     (default 0%R (loc_z loc_data)).

Definition locator_normal (loc_data : locator) : vec3 :=
  calculate_plane_normal
    (default 0%R (loc_rx loc_data))
    (default 0%R (loc_ry loc_data))
    (default 0%R (loc_rz loc_data)).

(** The two dicts appended to [results], lines 175 and 177. *)
Definition success_entry (locator_id output_dir : string) : gmap string string :=
  <["id" := locator_id]>
    (<["status" := "success"]>
       (<["image_path" := path_join output_dir (locator_id +:+ ".png")]> ∅)).

Definition error_entry (locator_id : string) : gmap string string :=
  <["id" := locator_id]>
    (<["status" := "error"]>
       (<["message" := "Failed to create slice image for " +:+ locator_id
                       +:+ " using PyVista"]> ∅)).

Section WithExternal.

Context {E : External}.

(** The body of the [for] loop, lines 159-177.  The default passed to
    [loc_data.get("id", ...)] is evaluated before the lookup, so a number
    is drawn for every locator. *)
Definition process_locator
    (obj_file_path output_dir : string) (loc_data : locator)
    : M (gmap string string) :=
  n <-- np_random_randint ;
  let locator_id := default ("unknown_loc_" +:+ pretty n) (loc_id loc_data) in
  let plane_origin := locator_origin loc_data in
  let plane_normal := locator_normal loc_data in
  let slice_radius := 200%R in
  ok <-- create_slice_image_pyvista obj_file_path plane_origin plane_normal
                                    locator_id slice_radius output_dir ;
  if ok then ret (success_entry locator_id output_dir)
  else ret (error_entry locator_id).

(** The [for] loop, with [results] as it stands on entry. *)
Fixpoint process_loop
    (obj_file_path output_dir : string) (locators_data_list : list locator)
    (results : list (gmap string string)) : M (list (gmap string string)) :=
  match locators_data_list with
  | [] => ret results
  | loc_data :: rest =>
      entry <-- process_locator obj_file_path output_dir loc_data ;
      process_loop obj_file_path output_dir rest (results ++ [entry])
  end.

(** The id the loop body uses for [loc_data] when it starts in state [h]:
    the ["id"] of the dict, or the generated placeholder. *)
Definition locator_id_at (h : history) (loc_data : locator) : string :=
  default ("unknown_loc_" +:+ pretty (randint h)) (loc_id loc_data).

(** The state the loop is in after the locators [done] of a batch started
    in state [h]. *)
Definition history_after
    (obj_file_path output_dir : string) (done : list locator) (h : history)
    : history :=
  (process_loop obj_file_path output_dir done [] h).2.

(** In state [h] the mesh at [obj_file_path] loads with at least one
    point and its slice by the plane has no points. *)
Definition empty_cross_section
    (obj_file_path : string) (plane_origin plane_normal : vec3) (h : history)
    : Prop :=
  exists (mesh_pv : mesh) (slice_polydata : polydata),
    read_mesh h obj_file_path = Some mesh_pv
    /\ (0 < mesh_n_points mesh_pv)%nat
    /\ mesh_slice (h ++ [EvReadMesh obj_file_path]) mesh_pv
                  plane_normal plane_origin = Some slice_polydata
    /\ polydata_points slice_polydata = [].

(** [entry] is one of the two dicts the loop body can append for
    [loc_data]: under the locator's own id, or under a generated
    placeholder when the dict has none. *)
Definition is_entry_for
    (output_dir : string) (loc_data : locator) (entry : gmap string string)
    : Prop :=
  exists locator_id : string,
    match loc_id loc_data with
    | Some id => locator_id = id
    | None => exists n : nat, locator_id = "unknown_loc_" +:+ pretty n
    end
    /\ (entry = success_entry locator_id output_dir
        \/ entry = error_entry locator_id).

(** slice_obj.py, lines 152-179. *)
Definition process_locators_for_obj
    (obj_file_path : string) (locators_data_list : list locator)
    (output_dir : string) : M (bool * list (gmap string string)) :=
  results <-- process_loop obj_file_path output_dir locators_data_list [] ;
  ret (true, results).

End WithExternal.

(** *** The loop on angles as they arrive

    The record [locator] above gives every angle the type of the data
    model.  The JSON body can carry anything under ["rx"], ["ry"] and
    ["rz"]; what follows is the same loop on locators whose angles are a
    number, a string or null (booleans, arrays and objects are left
    out).  The id and the coordinates keep their types. *)

Inductive json_scalar : Type :=
| JNum (r : R)
| JStr (s : string)
| JNull.

Record locator_json : Type := LocatorJson {
  lj_id : option string;
  lj_x : option R;
  lj_y : option R;
  lj_z : option R;
  lj_rx : option json_scalar;
  lj_ry : option json_scalar;
  lj_rz : option json_scalar
}.

(** [np.deg2rad] on such a value: numpy has no loop for a string or for
    [None] and raises [TypeError], which is [None] here. *)
Definition np_deg2rad (v : json_scalar) : option R :=
  match v with
  | JNum d => Some (deg2rad d)
  | JStr _ | JNull => None
  end.

(** slice_obj.py, lines 121-149, on such values, line by line: [ry_deg]
    is converted first, [rx_deg] second, [rz_deg] never. *)
Definition calculate_plane_normal_json
    (rx_deg ry_deg rz_deg : json_scalar) : option vec3 :=
  let normal_vec := V3 0 0 1 in
  rad_ry ← np_deg2rad ry_deg;
  let normal_vec := matvec (rot_mat_y rad_ry) normal_vec in
  rad_rx ← np_deg2rad rx_deg;
  let normal_vec := matvec (rot_mat_x rad_rx) normal_vec in
  Some (normalize_or_z normal_vec).

(** The value is absent or a number. *)
Definition is_number (v : option json_scalar) : bool :=
  match v with
  | None | Some (JNum _) => true
  | Some (JStr _) | Some JNull => false
  end.

(** The two angles the code converts are numbers where present. *)
Definition numeric_angles (loc_data : locator_json) : Prop :=
  is_number (lj_rx loc_data) = true /\ is_number (lj_ry loc_data) = true.

Definition number_of (v : option json_scalar) : option R :=
  match v with
  | Some (JNum r) => Some r
  | _ => None
  end.

(** The typed record with the same fields; an angle that is not a number
    is dropped. *)
Definition typed_of (loc_data : locator_json) : locator :=
  {| loc_id := lj_id loc_data;
     loc_x := lj_x loc_data;
     loc_y := lj_y loc_data;
     loc_z := lj_z loc_data;
     loc_rx := number_of (lj_rx loc_data);
     loc_ry := number_of (lj_ry loc_data);
     loc_rz := number_of (lj_rz loc_data) |}.

Section WithExternal.

Context {E : External}.

(** The body of the [for] loop, lines 159-177.  The call of
    [calculate_plane_normal] at lines 165-169 is outside every [try]: when
    it raises, the loop body raises. *)
Definition process_locator_json
    (obj_file_path output_dir : string) (loc_data : locator_json)
    : M (gmap string string) :=
  n <-- np_random_randint ;
  let locator_id := default ("unknown_loc_" +:+ pretty n) (lj_id loc_data) in
  let plane_origin :=
    V3 (default 0%R (lj_x loc_data))
       (default 0%R (lj_y loc_data))
       (default 0%R (lj_z loc_data)) in
  plane_normal <--
    match calculate_plane_normal_json
            (default (JNum 0) (lj_rx loc_data))
            (default (JNum 0) (lj_ry loc_data))
            (default (JNum 0) (lj_rz loc_data)) with
    | Some normal => ret normal
    | None => raise
    end ;
  let slice_radius := 200%R in
  ok <-- create_slice_image_pyvista obj_file_path plane_origin plane_normal
                                    locator_id slice_radius output_dir ;
  if ok then ret (success_entry locator_id output_dir)
  else ret (error_entry locator_id).

Fixpoint process_loop_json
    (obj_file_path output_dir : string)
    (locators_data_list : list locator_json)
    (results : list (gmap string string)) : M (list (gmap string string)) :=
  match locators_data_list with
  | [] => ret results
  | loc_data :: rest =>
      entry <-- process_locator_json obj_file_path output_dir loc_data ;
      process_loop_json obj_file_path output_dir rest (results ++ [entry])
  end.

(** slice_obj.py, lines 152-179, on such locators. *)
Definition process_locators_for_obj_json
    (obj_file_path : string) (locators_data_list : list locator_json)
    (output_dir : string) : M (bool * list (gmap string string)) :=
  results <--
    process_loop_json obj_file_path output_dir locators_data_list [] ;
  ret (true, results).

End WithExternal.

End SliceObj.

(** ** app.py: the [/slice] handler *)

Module App.

Import Geometry SliceObj.

(** A value of the JSON body, for the two keys the handler reads: a
    string, or a list of locator dicts. *)
Inductive field_value : Type :=
| FStr (s : string)
| FLocators (l : list locator).

(** Python truthiness of [data.get(key)]: [None], the empty string and
    the empty list are false. *)
Definition truthy (v : option field_value) : bool :=
  match v with
  | None => false
  | Some (FStr s) => negb (bool_decide (s = EmptyString))
  | Some (FLocators l) => negb (length l =? 0)%nat
  end.

(** The dict given to [jsonify]. *)
Inductive body : Type :=
| ErrorBody (error : string)
| SliceBody (message obj_file_processed : string)
            (num_locators_processed : nat)
            (slice_results : list (gmap string string))
| CriticalBody (error obj_file_processed : string)
               (details : list (gmap string string))
| UnexpectedBody (error : string).

Record response : Type := Response {
  status_code : nat;
  response_body : body
}.

Section WithExternal.

Context {E : External}.

(** app.py, lines 47-71: what the handler does once the path is
    resolved.  Logging is not modelled.  A string under ["locators"] has a
    length, and the loop then fails on its first character, which has no
    [get]. *)
Definition slice_resolved
    (obj_file_path_actual : string) (locators_data : field_value)
    : M response :=
  let output_image_dir :=
    path_join (path_join base_dir "data") "generated_slices" in
  call_ (EvMakedirs output_image_dir)
        (fun h => os_makedirs h output_image_dir) >>>
  match locators_data with
  | FStr _ => raise
  | FLocators locators_data =>
      r <-- process_locators_for_obj obj_file_path_actual locators_data
                                     output_image_dir ;
      let '(success, results) := r in
      if success : bool then
        ret (Response 200
               (SliceBody ("Slicing process completed for "
                           +:+ basename obj_file_path_actual +:+ ".")
                          obj_file_path_actual
                          (length locators_data)
                          results))
      else
        ret (Response 500
               (CriticalBody "Slicing process encountered errors."
                             obj_file_path_actual
                             results))
  end.

(** The path is found by none of the three rules of the handler: it is
    not an existing absolute path, and it exists neither under the base
    directory nor under its [data] subdirectory. *)
Definition unresolvable (h : history) (obj_file_path_input : string) : Prop :=
  ~ (isabs obj_file_path_input = true
     /\ path_exists h obj_file_path_input = true)
  /\ path_exists h (path_join base_dir obj_file_path_input) = false
  /\ path_exists h (path_join (path_join base_dir "data")
                              obj_file_path_input) = false.

(** app.py, lines 12-75, from the value [request.get_json()] returned
    ([None] is Python's [None]).  A list under ["obj_file_path"] makes
    [os.path.isabs] raise. *)
Definition slice_model_endpoint
    (data : option (gmap string field_value)) : M response :=
  try_except
    (match data with
     | None => ret (Response 400 (ErrorBody "Invalid JSON payload"))
     | Some data =>
         if bool_decide (size data = 0%nat)
         then ret (Response 400 (ErrorBody "Invalid JSON payload"))
         else
           let obj_file_path_input := data !! "obj_file_path" in
           let locators_data := data !! "locators" in
           if negb (truthy obj_file_path_input) || negb (truthy locators_data)
           then ret (Response 400
                       (ErrorBody "Missing obj_file_path or locators_data"))
           else
             match obj_file_path_input, locators_data with
             | Some (FStr obj_file_path_input), Some locators_data =>
                 if negb (isabs obj_file_path_input) then
                   let path_from_root :=
                     path_join base_dir obj_file_path_input in
                   let path_from_data_dir :=
                     path_join (path_join base_dir "data")
                               obj_file_path_input in
                   in_root <-- os_path_exists path_from_root ;
                   if in_root : bool then
                     slice_resolved path_from_root locators_data
                   else
                     in_data <-- os_path_exists path_from_data_dir ;
                     if in_data : bool then
                       slice_resolved path_from_data_dir locators_data
                     else
                       ret (Response 404
                              (ErrorBody
                                 ("OBJ file not found at '"
                                  +:+ obj_file_path_input +:+ "', '"
                                  +:+ path_from_root +:+ "', or '"
                                  +:+ path_from_data_dir +:+ "'")))
                 else
                   found <-- os_path_exists obj_file_path_input ;
                   if found : bool then
                     slice_resolved obj_file_path_input locators_data
                   else
                     ret (Response 404
                            (ErrorBody
                               ("OBJ file not found at absolute path: "
                                +:+ obj_file_path_input)))
             | _, _ => raise
             end
     end)
    (ret (Response 500 (UnexpectedBody "An unexpected server error occurred."))).

End WithExternal.

End App.

(** ** A concrete outside world, for running the code on examples *)

Module CubeWorld.

Import Geometry SliceObj.

Definition cube_path : string := "/srv/app/data/test_cube.obj".

Fixpoint count_slices (h : history) : nat :=
  match h with
  | [] => 0
  | EvSlice _ _ :: rest => S (count_slices rest)
  | _ :: rest => count_slices rest
  end.

(** One readable mesh of eight points at [cube_path]; nothing else
    exists.  The first slice of a request gives two points, the second
    raises, every later one is empty.  Rendering always works. *)
#[global] Instance cube_world : External := {|
  mesh := nat;
  polydata := list vec3;
  randint := fun h => length h;
  read_mesh := fun _ path =>
    if bool_decide (path = cube_path) then Some 8 else None;
  mesh_n_points := fun m => m;
  mesh_slice := fun h _ _ origin =>
    match count_slices h with
    | 0 => Some [origin; origin]
    | 1 => None
    | _ => Some []
    end;
  polydata_truthy := fun _ => true;
  polydata_points := fun pd => pd;
  plotter_setup := fun _ _ _ _ _ _ => true;
  os_makedirs := fun _ _ => true;
  plotter_screenshot := fun _ _ => true;
  plotter_close := fun _ => true;
  path_exists := fun _ path => bool_decide (path = cube_path);
  base_dir := "/srv/app"
|}.

Definition loc_named (name : string) : locator :=
  {| loc_id := Some name; loc_x := None; loc_y := None; loc_z := None;
     loc_rx := None; loc_ry := None; loc_rz := None |}.

Definition loc_anonymous : locator :=
  {| loc_id := None; loc_x := None; loc_y := None; loc_z := None;
     loc_rx := None; loc_ry := None; loc_rz := None |}.


(** Three request bodies. *)
Definition request_without_locators : gmap string App.field_value :=
  {[ "obj_file_path" := App.FStr "missing.obj" ]}.

Definition request_missing_file : gmap string App.field_value :=
  <["obj_file_path" := App.FStr "missing.obj"]>
    {[ "locators" := App.FLocators [loc_named "PV_TEST_001"] ]}.

Definition request_empty_locators : gmap string App.field_value :=
  <["obj_file_path" := App.FStr "test_cube.obj"]>
    {[ "locators" := App.FLocators [] ]}.

End CubeWorld.

(** ** Vocabulary for the further properties *)

Module Trace.

Import Geometry SliceObj App.

(** The external calls of one complete run of
    [create_slice_image_pyvista], in the order of lines 23-94. *)
Definition render_trace
    (obj_file_path : string) (plane_origin plane_normal : vec3)
    (locator_id : string) (radius : R) (output_dir : string) : list event :=
  [EvReadMesh obj_file_path;
   EvSlice plane_normal plane_origin;
   EvPlotter plane_origin
             (vadd plane_origin (vscale (vscale plane_normal radius) 0.5%R))
             (calculate_camera_up_vector plane_normal)
             radius;
   EvMakedirs output_dir;
   EvScreenshot (path_join output_dir (locator_id +:+ ".png"));
   EvClose].

Definition is_draw (e : event) : bool :=
  match e with EvRandint _ => true | _ => false end.

Definition is_read (e : event) : bool :=
  match e with EvReadMesh _ => true | _ => false end.

Definition count_events (kind : event -> bool) (events : list event) : nat :=
  length (List.filter kind events).

Fixpoint has_sep (p : string) : bool :=
  match p with
  | EmptyString => false
  | String c rest => bool_decide (c = "/"%char) || has_sep rest
  end.

(** A request body that passes lines 15-22 with a string as its path. *)
Definition valid_request
    (data : gmap string field_value) (obj_file_path_input : string)
    (locators_data : field_value) : Prop :=
  data !! "obj_file_path" = Some (FStr obj_file_path_input)
  /\ obj_file_path_input <> EmptyString
  /\ data !! "locators" = Some locators_data
  /\ truthy (Some locators_data) = true.

(** The answer of the outer [except], line 75. *)
Definition unexpected : response :=
  Response 500 (UnexpectedBody "An unexpected server error occurred.").

Section WithExternal.

Context {E : External}.

(** app.py, lines 29-45, as a function of the path: the path the handler
    goes on with, or [None] where it answers 404. *)
Definition resolve_obj_path (h : history) (obj_file_path_input : string)
    : option string :=
  if negb (isabs obj_file_path_input) then
    let path_from_root := path_join base_dir obj_file_path_input in
    let path_from_data_dir :=
      path_join (path_join base_dir "data") obj_file_path_input in
    if path_exists h path_from_root then Some path_from_root
    else if path_exists h path_from_data_dir then Some path_from_data_dir
    else None
  else if path_exists h obj_file_path_input then Some obj_file_path_input
  else None.

(** [output_image_dir] of line 51. *)
Definition output_image_dir : string :=
  path_join (path_join base_dir "data") "generated_slices".

End WithExternal.

(** The cube world with the outcomes of [os.makedirs] and
    [plotter.close] chosen. *)
Definition cube_world_with (makedirs_ok close_ok : bool) : External := {|
  mesh := nat;
  polydata := list vec3;
  randint := fun h => length h;
  read_mesh := fun _ path =>
    if bool_decide (path = CubeWorld.cube_path) then Some 8 else None;
  mesh_n_points := fun m => m;
  mesh_slice := fun _ _ _ origin => Some [origin; origin];
  polydata_truthy := fun _ => true;
  polydata_points := fun pd => pd;
  plotter_setup := fun _ _ _ _ _ _ => true;
  os_makedirs := fun _ _ => makedirs_ok;
  plotter_screenshot := fun _ _ => true;
  plotter_close := fun _ => close_ok;
  path_exists := fun _ path => bool_decide (path = CubeWorld.cube_path);
  base_dir := "/srv/app"
|}.

(** A world in which the file at [cube_path] holds a mesh without
    points. *)
Definition empty_mesh_world : External := {|
  mesh := nat;
  polydata := list vec3;
  randint := fun h => length h;
  read_mesh := fun _ _ => Some 0;
  mesh_n_points := fun m => m;
  mesh_slice := fun _ _ _ _ => Some [];
  polydata_truthy := fun _ => true;
  polydata_points := fun pd => pd;
  plotter_setup := fun _ _ _ _ _ _ => true;
  os_makedirs := fun _ _ => true;
  plotter_screenshot := fun _ _ => true;
  plotter_close := fun _ => true;
  path_exists := fun _ _ => true;
  base_dir := "/srv/app"
|}.

Definition request_cube : gmap string field_value :=
  <["obj_file_path" := FStr "test_cube.obj"]>
    {[ "locators" := FLocators [CubeWorld.loc_named "PV_TEST_001"] ]}.

Definition request_string_locators : gmap string field_value :=
  <["obj_file_path" := FStr "test_cube.obj"]>
    {[ "locators" := FStr "abc" ]}.

End Trace.

(** * Properties *)

(** ** The geometric helpers *)

Module GeometryFacts.

Import Geometry.

Local Open Scope R_scope.

(** *** Basic facts *)

Lemma vec3_eq (a b c a' b' c' : R) :
  a = a' -> b = b' -> c = c' -> V3 a b c = V3 a' b' c'.
Proof. by intros -> -> ->. Qed.

Lemma deg2rad_0 : deg2rad 0 = 0.
Proof. unfold deg2rad. lra. Qed.


Lemma linalg_norm_nonneg (v : vec3) : 0 <= linalg_norm v.
Proof. apply sqrt_pos. Qed.

Lemma sum_sqr_nonneg (a b c : R) : 0 <= a * a + b * b + c * c.
Proof. nra. Qed.

Lemma linalg_norm_sqr (v : vec3) :
  linalg_norm v * linalg_norm v = vx v * vx v + vy v * vy v + vz v * vz v.
Proof. unfold linalg_norm. apply sqrt_sqrt, sum_sqr_nonneg. Qed.

Lemma linalg_norm_unit (a b c : R) :
  a * a + b * b + c * c = 1 -> linalg_norm (V3 a b c) = 1.
Proof. unfold linalg_norm; simpl. intros ->. apply sqrt_1. Qed.

Lemma linalg_norm_axis_y : linalg_norm (V3 0 1 0) = 1.
Proof. apply linalg_norm_unit. lra. Qed.

Lemma linalg_norm_zero_iff (v : vec3) :
  linalg_norm v = 0 <-> v = V3 0 0 0.
Proof.
  split.
  - intros H. pose proof (linalg_norm_sqr v) as Hs. rewrite H in Hs.
    destruct v as [a b c]; simpl in *.
    apply vec3_eq; nra.
  - intros ->. unfold linalg_norm; simpl.
    replace (0 * 0 + 0 * 0 + 0 * 0) with 0 by lra. apply sqrt_0.
Qed.

(** Dividing by the norm gives a unit vector. *)
Lemma linalg_norm_vdiv (v : vec3) :
  0 < linalg_norm v -> linalg_norm (vdiv v (linalg_norm v)) = 1.
Proof.
  intros Hpos. pose proof (linalg_norm_sqr v) as Hs.
  set (n := linalg_norm v) in *.
  destruct v as [a b c]; simpl in *.
  apply linalg_norm_unit; simpl.
  replace (a / n * (a / n) + b / n * (b / n) + c / n * (c / n))
    with ((a * a + b * b + c * c) / (n * n)) by (field; lra).
  rewrite <- Hs. field. lra.
Qed.

Lemma vdiv_1 (v : vec3) : vdiv v 1 = v.
Proof. destruct v as [a b c]. unfold vdiv; simpl. apply vec3_eq; lra. Qed.

(** The vector after both rotations, before normalisation. *)
Lemma rotated_vector (rx ry : R) :
  matvec (rot_mat_x (deg2rad rx)) (matvec (rot_mat_y (deg2rad ry)) (V3 0 0 1))
  = V3 (sin (deg2rad ry))
       (- sin (deg2rad rx) * cos (deg2rad ry))
       (cos (deg2rad rx) * cos (deg2rad ry)).
Proof. unfold matvec, dot; simpl. apply vec3_eq; lra. Qed.

Lemma rotated_vector_norm (rx ry : R) :
  linalg_norm (V3 (sin (deg2rad ry))
                  (- sin (deg2rad rx) * cos (deg2rad ry))
                  (cos (deg2rad rx) * cos (deg2rad ry))) = 1.
Proof.
  apply linalg_norm_unit.
  pose proof (sin2_cos2 (deg2rad rx)) as Hx.
  pose proof (sin2_cos2 (deg2rad ry)) as Hy.
  unfold Rsqr in Hx, Hy.
  set (sx := sin (deg2rad rx)) in *. set (cx := cos (deg2rad rx)) in *.
  set (sy := sin (deg2rad ry)) in *. set (cy := cos (deg2rad ry)) in *.
  replace (sy * sy + - sx * cy * (- sx * cy) + cx * cy * (cx * cy))
    with (sy * sy + (sx * sx + cx * cx) * (cy * cy)) by ring.
  rewrite Hx. lra.
Qed.

(** In exact arithmetic the rotated vector is already a unit vector, so
    the function returns it unchanged. *)
Lemma calculate_plane_normal_closed_form (rx ry rz : R) :
  calculate_plane_normal rx ry rz
  = V3 (sin (deg2rad ry))
       (- sin (deg2rad rx) * cos (deg2rad ry))
       (cos (deg2rad rx) * cos (deg2rad ry)).
Proof.
  unfold calculate_plane_normal; cbv zeta.
  rewrite rotated_vector. unfold normalize_or_z; cbv zeta.
  rewrite rotated_vector_norm.
  rewrite bool_decide_eq_true_2 by lra.
  apply vdiv_1.
Qed.


(** *** The rotation matrices are rotations about their axes *)





(** *** Normalisation *)

Lemma normalize_or_z_zero (v : vec3) :
  linalg_norm v = 0 -> normalize_or_z v = V3 0 0 1.
Proof.
  intros H. unfold normalize_or_z; cbv zeta. rewrite H.
  rewrite bool_decide_eq_false_2; [done | lra].
Qed.

Lemma normalize_or_z_unit (v : vec3) :
  linalg_norm (normalize_or_z v) = 1.
Proof.
  unfold normalize_or_z; cbv zeta. case_bool_decide as Hpos.
  - by apply linalg_norm_vdiv.
  - apply linalg_norm_unit. lra.
Qed.

(** *** Closeness of concrete numbers *)

Ltac isclose_tac :=
  unfold isclose, atol, rtol;
  first [ apply bool_decide_eq_true_2 | apply bool_decide_eq_false_2 ];
  unfold Rabs; repeat destruct Rcase_abs; lra.

Lemma isclose_refl (a : R) : isclose a a = true.
Proof. isclose_tac. Qed.

Lemma allclose_refl (v : vec3) : allclose v v = true.
Proof. unfold allclose. by rewrite !isclose_refl. Qed.

Lemma isclose_1_0 : isclose 1 0 = false.
Proof. isclose_tac. Qed.

Lemma isclose_m1_0 : isclose (-1) 0 = false.
Proof. isclose_tac. Qed.

Lemma isclose_0_1 : isclose 0 1 = false.
Proof. isclose_tac. Qed.

Lemma isclose_0_m1 : isclose 0 (-1) = false.
Proof. isclose_tac. Qed.

Lemma isclose_m1_1 : isclose (-1) 1 = false.
Proof. isclose_tac. Qed.

Lemma isclose_1_m1 : isclose 1 (-1) = false.
Proof. isclose_tac. Qed.

Lemma up_vector_z : calculate_camera_up_vector (V3 0 0 1) = V3 0 1 0.
Proof. unfold calculate_camera_up_vector. by rewrite allclose_refl. Qed.

Lemma up_vector_minus_z : calculate_camera_up_vector (V3 0 0 (-1)) = V3 0 1 0.
Proof.
  unfold calculate_camera_up_vector.
  rewrite (allclose_refl (V3 0 0 (-1))). by rewrite orb_true_r.
Qed.

Lemma up_vector_y : calculate_camera_up_vector (V3 0 1 0) = V3 0 0 1.
Proof.
  unfold calculate_camera_up_vector.
  rewrite (allclose_refl (V3 0 1 0)).
  unfold allclose; simpl. by rewrite isclose_1_0, isclose_refl.
Qed.

Lemma up_vector_minus_y : calculate_camera_up_vector (V3 0 (-1) 0) = V3 0 0 1.
Proof.
  unfold calculate_camera_up_vector.
  rewrite (allclose_refl (V3 0 (-1) 0)).
  unfold allclose; simpl. rewrite isclose_m1_0, isclose_refl. simpl.
  by rewrite orb_true_r.
Qed.


(** Any vector along the Z axis, of whatever length, gets [(0,1,0)]:
    by the first test when its length is close to 1, by the fallback of
    the last case otherwise. *)
Lemma up_vector_along_z (k : R) :
  calculate_camera_up_vector (V3 0 0 k) = V3 0 1 0.
Proof.
  unfold calculate_camera_up_vector.
  destruct (allclose (V3 0 0 k) (V3 0 0 1) || allclose (V3 0 0 k) (V3 0 0 (-1)));
    [done |].
  unfold allclose at 1 2; simpl.
  rewrite isclose_0_1, isclose_0_m1, !andb_false_r. simpl.
  replace (cross (V3 0 0 k) (V3 0 0 1)) with (V3 0 0 0)
    by (unfold cross; simpl; apply vec3_eq; lra).
  rewrite (proj2 (linalg_norm_zero_iff (V3 0 0 0)) eq_refl).
  rewrite bool_decide_eq_true_2 by lra.
  rewrite linalg_norm_axis_y. apply vdiv_1.
Qed.

(** *** The claims about the two helpers *)

(** C4.  The third angle has no effect on the normal:
    [calculate_plane_normal rx ry rz] is [calculate_plane_normal rx ry 0]
    for all angles, and with [rx = ry = 0] the result is exactly
    [(0, 0, 1)] whatever [rz] is. *)
Theorem calculate_plane_normal_ignores_rz :
  (forall rx ry rz : R,
     calculate_plane_normal rx ry rz = calculate_plane_normal rx ry 0)
  /\ (forall rz : R, calculate_plane_normal 0 0 rz = V3 0 0 1).
Proof.
  split.
  - intros rx ry rz. reflexivity.
  - intros rz. rewrite calculate_plane_normal_closed_form.
    rewrite deg2rad_0, sin_0, cos_0. apply vec3_eq; lra.
Qed.


(** C6.  With [rz = 0] the returned vector has length 1 for all [rx] and
    [ry] (exactly, in real arithmetic); and a rotated vector of length
    zero is replaced by the fallback [(0, 0, 1)]. *)
Theorem calculate_plane_normal_unit :
  (forall rx ry : R, linalg_norm (calculate_plane_normal rx ry 0) = 1)
  /\ (forall rx ry rz : R,
        calculate_plane_normal rx ry rz
        = normalize_or_z
            (matvec (rot_mat_x (deg2rad rx))
                    (matvec (rot_mat_y (deg2rad ry)) (V3 0 0 1))))
  /\ (forall normal_vec : vec3,
        linalg_norm normal_vec = 0 ->
        normalize_or_z normal_vec = V3 0 0 1).
Proof.
  split; [| split].
  - intros rx ry. rewrite calculate_plane_normal_closed_form.
    apply rotated_vector_norm.
  - reflexivity.
  - apply normalize_or_z_zero.
Qed.

(** The zero vector has length zero and takes the fallback. *)
Lemma calculate_plane_normal_unit_witness :
  linalg_norm (V3 0 0 0) = 0 /\ normalize_or_z (V3 0 0 0) = V3 0 0 1.
Proof.
  assert (H0 : linalg_norm (V3 0 0 0) = 0)
    by (apply linalg_norm_zero_iff; reflexivity).
  split; [exact H0 |].
  exact (proj2 (proj2 calculate_plane_normal_unit) (V3 0 0 0) H0).
Defined.

(** C7.  The up vector, case by case.  A normal within [np.allclose]
    tolerance of [(0,0,1)] or [(0,0,-1)] gives [(0,1,0)]; otherwise one
    within tolerance of [(0,1,0)] or [(0,-1,0)] gives [(0,0,1)]; otherwise
    the result is the cross product of the normal with the Z axis divided
    by its length, a unit vector, unless that length is below [1e-6], when
    it is [(0,1,0)].  On the four axis vectors themselves the first two
    cases give [(0,1,0)] and [(0,0,1)], and every vector along the Z axis
    gets [(0,1,0)]. *)
Theorem calculate_camera_up_vector_cases (plane_normal : vec3) :
  (allclose plane_normal (V3 0 0 1) = true
   \/ allclose plane_normal (V3 0 0 (-1)) = true ->
   calculate_camera_up_vector plane_normal = V3 0 1 0)
  /\ (allclose plane_normal (V3 0 0 1) = false ->
      allclose plane_normal (V3 0 0 (-1)) = false ->
      allclose plane_normal (V3 0 1 0) = true
      \/ allclose plane_normal (V3 0 (-1) 0) = true ->
      calculate_camera_up_vector plane_normal = V3 0 0 1)
  /\ (allclose plane_normal (V3 0 0 1) = false ->
      allclose plane_normal (V3 0 0 (-1)) = false ->
      allclose plane_normal (V3 0 1 0) = false ->
      allclose plane_normal (V3 0 (-1) 0) = false ->
      let up := cross plane_normal (V3 0 0 1) in
      (linalg_norm up < 1e-6 ->
       calculate_camera_up_vector plane_normal = V3 0 1 0)
      /\ (~ linalg_norm up < 1e-6 ->
          calculate_camera_up_vector plane_normal = vdiv up (linalg_norm up)
          /\ linalg_norm (calculate_camera_up_vector plane_normal) = 1))
  /\ calculate_camera_up_vector (V3 0 0 1) = V3 0 1 0
  /\ calculate_camera_up_vector (V3 0 0 (-1)) = V3 0 1 0
  /\ calculate_camera_up_vector (V3 0 1 0) = V3 0 0 1
  /\ calculate_camera_up_vector (V3 0 (-1) 0) = V3 0 0 1
  /\ (forall k : R, calculate_camera_up_vector (V3 0 0 k) = V3 0 1 0).
Proof.
  split; [| split; [| split]].
  - intros Hz. unfold calculate_camera_up_vector.
    destruct Hz as [-> | ->]; [done | by rewrite orb_true_r].
  - intros Hz1 Hz2 Hy. unfold calculate_camera_up_vector.
    rewrite Hz1, Hz2. simpl.
    destruct Hy as [-> | ->]; [done | by rewrite orb_true_r].
  - intros Hz1 Hz2 Hy1 Hy2 up.
    unfold calculate_camera_up_vector.
    rewrite Hz1, Hz2, Hy1, Hy2. simpl. fold up.
    split.
    + intros Hsmall. rewrite bool_decide_eq_true_2 by done.
      rewrite linalg_norm_axis_y. apply vdiv_1.
    + intros Hbig. rewrite bool_decide_eq_false_2 by done.
      split; [done |].
      apply linalg_norm_vdiv.
      pose proof (linalg_norm_nonneg up). lra.
  - auto using up_vector_z, up_vector_minus_z, up_vector_y,
               up_vector_minus_y, up_vector_along_z.
Qed.

(** The X axis falls in the third case: its cross product with the Z
    axis is [(0, -1, 0)], of length 1. *)
Lemma calculate_camera_up_vector_cases_witness :
  calculate_camera_up_vector (V3 1 0 0) = V3 0 (-1) 0.
Proof.
  assert (Hc : cross (V3 1 0 0) (V3 0 0 1) = V3 0 (-1) 0)
    by (unfold cross; simpl; apply vec3_eq; lra).
  assert (Hn : linalg_norm (V3 0 (-1) 0) = 1)
    by (apply linalg_norm_unit; lra).
  assert (Hz1 : allclose (V3 1 0 0) (V3 0 0 1) = false)
    by (unfold allclose; simpl; by rewrite isclose_1_0).
  assert (Hz2 : allclose (V3 1 0 0) (V3 0 0 (-1)) = false)
    by (unfold allclose; simpl; by rewrite isclose_1_0).
  assert (Hy1 : allclose (V3 1 0 0) (V3 0 1 0) = false)
    by (unfold allclose; simpl; by rewrite isclose_1_0).
  assert (Hy2 : allclose (V3 1 0 0) (V3 0 (-1) 0) = false)
    by (unfold allclose; simpl; by rewrite isclose_1_0).
  assert (Hbig : ~ linalg_norm (cross (V3 1 0 0) (V3 0 0 1)) < 1e-6)
    by (rewrite Hc, Hn; lra).
  destruct (calculate_camera_up_vector_cases (V3 1 0 0))
    as (_ & _ & H3 & _).
  destruct (H3 Hz1 Hz2 Hy1 Hy2) as [_ Hcase].
  destruct (Hcase Hbig) as [-> _].
  rewrite Hc, Hn. apply vdiv_1.
Defined.

End GeometryFacts.

(** ** One slice and the batch loop *)

Module SliceObjFacts.

Import Geometry SliceObj.

Section WithExternal.

Context {E : External}.

Implicit Types (h : history) (loc : locator) (locs : list locator).

(** *** One slice *)

(** Whatever the outside world does, the call returns a boolean: every
    exception raised inside is caught. *)
Lemma create_slice_image_pyvista_returns
    (path : string) (origin normal : vec3) (id : string) (radius : R)
    (out : string) h :
  exists (ok : bool) (h' : history),
    create_slice_image_pyvista path origin normal id radius out h = (Ok ok, h').
Proof.
  unfold create_slice_image_pyvista, try_except.
  match goal with
  | |- context [match ?body h with _ => _ end] =>
      destruct (body h) as [[ok |] h']
  end; unfold ret; eauto.
Qed.


(** An empty cross-section gives [True] after the read and the slice
    alone: no plotter, no directory, no screenshot. *)
Lemma create_slice_image_pyvista_empty
    (path : string) (origin normal : vec3) (id : string) (radius : R)
    (out : string) h :
  empty_cross_section path origin normal h ->
  create_slice_image_pyvista path origin normal id radius out h
  = (Ok true, h ++ [EvReadMesh path; EvSlice normal origin]).
Proof.
  intros (mesh_pv & pd & Hread & Hpts & Hslice & Hempty).
  unfold create_slice_image_pyvista, try_except, bind, pv_read, call, ret.
  rewrite Hread.
  apply Nat.ltb_lt in Hpts. rewrite Hpts. simpl.
  rewrite Hslice, Hempty. simpl.
  rewrite orb_true_r. by rewrite <- app_assoc.
Qed.

(** *** The loop body *)

Lemma process_locator_unfold (path out : string) loc h :
  process_locator path out loc h
  = match create_slice_image_pyvista path (locator_origin loc)
            (locator_normal loc) (locator_id_at h loc) 200 out
            (h ++ [EvRandint (randint h)]) with
    | (Ok true, h') => (Ok (success_entry (locator_id_at h loc) out), h')
    | (Ok false, h') => (Ok (error_entry (locator_id_at h loc)), h')
    | (Raise, h') => (Raise, h')
    end.
Proof.
  unfold process_locator, bind, np_random_randint, locator_id_at.
  destruct (create_slice_image_pyvista _ _ _ _ _ _ _) as [[[] |] h']; done.
Qed.

(** The loop body always produces an entry for its locator, a success
    entry or an error entry, under the locator's id. *)
Lemma process_locator_returns (path out : string) loc h :
  exists (entry : gmap string string) (h' : history),
    process_locator path out loc h = (Ok entry, h')
    /\ (entry = success_entry (locator_id_at h loc) out
        \/ entry = error_entry (locator_id_at h loc)).
Proof.
  rewrite process_locator_unfold.
  destruct (create_slice_image_pyvista_returns path (locator_origin loc)
              (locator_normal loc) (locator_id_at h loc) 200 out
              (h ++ [EvRandint (randint h)])) as (ok & h' & ->).
  destruct ok; eauto.
Qed.

(** *** The loop *)

(** The entries already collected are kept in front, and do not change
    what the loop does. *)
Lemma process_loop_results (path out : string) locs :
  forall (results : list (gmap string string)) h,
    process_loop path out locs results h
    = match process_loop path out locs [] h with
      | (Ok new, h') => (Ok (results ++ new), h')
      | (Raise, h') => (Raise, h')
      end.
Proof.
  induction locs as [| loc rest IH]; intros results h; simpl.
  - unfold ret. by rewrite app_nil_r.
  - unfold bind.
    destruct (process_locator path out loc h) as [[entry |] h1]; [| done].
    rewrite (IH (results ++ [entry])), (IH ([] ++ [entry])).
    destruct (process_loop path out rest [] h1) as [[new |] h2]; [| done].
    by rewrite <- app_assoc.
Qed.

(** The loop never raises and yields one entry per locator, in order. *)
Lemma process_loop_returns (path out : string) locs :
  forall h,
    exists (results : list (gmap string string)) (h' : history),
      process_loop path out locs [] h = (Ok results, h')
      /\ length results = length locs.
Proof.
  induction locs as [| loc rest IH]; intros h; simpl.
  - exists [], h. done.
  - unfold bind.
    destruct (process_locator_returns path out loc h)
      as (entry & h1 & -> & _).
    rewrite process_loop_results.
    destruct (IH h1) as (new & h2 & -> & Hlen).
    exists ([] ++ [entry] ++ new), h2. simpl. by rewrite Hlen.
Qed.

(** Processing a batch is processing its first part and then the rest,
    from the state the first part left. *)
Lemma process_loop_app (path out : string) (locs1 locs2 : list locator) :
  forall h,
    process_loop path out (locs1 ++ locs2) [] h
    = match process_loop path out locs1 [] h with
      | (Ok results1, h1) =>
          match process_loop path out locs2 [] h1 with
          | (Ok results2, h2) => (Ok (results1 ++ results2), h2)
          | (Raise, h2) => (Raise, h2)
          end
      | (Raise, h1) => (Raise, h1)
      end.
Proof.
  induction locs1 as [| loc rest IH]; intros h; simpl.
  - unfold ret. by destruct (process_loop path out locs2 [] h) as [[] ?].
  - unfold bind.
    destruct (process_locator path out loc h) as [[entry |] h1]; [| done].
    rewrite (process_loop_results _ _ (rest ++ locs2)).
    rewrite (process_loop_results _ _ rest).
    rewrite IH.
    destruct (process_loop path out rest [] h1) as [[results1 |] h2]; [| done].
    destruct (process_loop path out locs2 [] h2) as [[results2 |] h3]; [| done].
    by rewrite <- app_assoc.
Qed.

(** *** The two kinds of entry *)

Lemma success_entry_lookup (id out : string) :
  success_entry id out !! "id" = Some id
  /\ success_entry id out !! "status" = Some "success"
  /\ success_entry id out !! "image_path"
     = Some (path_join out (id +:+ ".png"))
  /\ success_entry id out !! "message" = None.
Proof. unfold success_entry. repeat split; by simplify_map_eq. Qed.

Lemma error_entry_lookup (id : string) :
  error_entry id !! "id" = Some id
  /\ error_entry id !! "status" = Some "error"
  /\ error_entry id !! "message"
     = Some ("Failed to create slice image for " +:+ id +:+ " using PyVista")
  /\ error_entry id !! "image_path" = None.
Proof. unfold error_entry. repeat split; by simplify_map_eq. Qed.

(** *** The batch *)

Lemma locator_id_at_spec h loc :
  match loc_id loc with
  | Some id => locator_id_at h loc = id
  | None => exists n : nat, locator_id_at h loc = "unknown_loc_" +:+ pretty n
  end.
Proof. unfold locator_id_at. destruct (loc_id loc); simpl; eauto. Qed.

Lemma process_locator_entry (path out : string) loc h :
  exists (entry : gmap string string) (h' : history),
    process_locator path out loc h = (Ok entry, h')
    /\ is_entry_for out loc entry.
Proof.
  destruct (process_locator_returns path out loc h)
    as (entry & h' & Hrun & Hentry).
  exists entry, h'. split; [done |].
  exists (locator_id_at h loc). split; [apply locator_id_at_spec | done].
Qed.

Lemma process_loop_entries (path out : string) locs :
  forall h,
    exists (results : list (gmap string string)) (h' : history),
      process_loop path out locs [] h = (Ok results, h')
      /\ Forall2 (is_entry_for out) locs results.
Proof.
  induction locs as [| loc rest IH]; intros h; simpl.
  - exists [], h. split; [done | constructor].
  - unfold bind.
    destruct (process_locator_entry path out loc h)
      as (entry & h1 & -> & Hentry).
    rewrite process_loop_results.
    destruct (IH h1) as (new & h2 & -> & Hall).
    exists (entry :: new), h2. split; [done | by constructor].
Qed.

(** The outcome of a batch, seen from one of its locators: the entries of
    the locators before it, its own entry, those of the locators after. *)
Lemma process_loop_at
    (path out : string) (locs1 : list locator) loc (locs2 : list locator) h :
  exists (results1 results2 : list (gmap string string))
         (entry : gmap string string) (h' : history),
    process_locator path out loc (history_after path out locs1 h)
    = (Ok entry, history_after path out (locs1 ++ [loc]) h)
    /\ process_loop path out (locs1 ++ loc :: locs2) [] h
       = (Ok (results1 ++ entry :: results2), h')
    /\ length results1 = length locs1
    /\ length results2 = length locs2.
Proof.
  unfold history_after.
  rewrite (process_loop_app path out locs1 [loc]).
  rewrite (process_loop_app path out locs1 (loc :: locs2)).
  destruct (process_loop_returns path out locs1 h)
    as (results1 & h1 & -> & Hlen1).
  simpl. unfold bind, ret.
  destruct (process_locator_returns path out loc h1)
    as (entry & h2 & -> & _).
  rewrite (process_loop_results path out locs2).
  destruct (process_loop_returns path out locs2 h2)
    as (results2 & h3 & -> & Hlen2).
  exists results1, results2, entry, h3. simpl. done.
Qed.

Lemma process_locators_for_obj_unfold (path out : string) locs h :
  process_locators_for_obj path locs out h
  = match process_loop path out locs [] h with
    | (Ok results, h') => (Ok (true, results), h')
    | (Raise, h') => (Raise, h')
    end.
Proof. reflexivity. Qed.

Lemma process_locator_empty (path out : string) loc h :
  empty_cross_section path (locator_origin loc) (locator_normal loc)
                      (h ++ [EvRandint (randint h)]) ->
  process_locator path out loc h
  = (Ok (success_entry (locator_id_at h loc) out),
     h ++ [EvRandint (randint h); EvReadMesh path;
           EvSlice (locator_normal loc) (locator_origin loc)]).
Proof.
  intros Hempty. rewrite process_locator_unfold.
  rewrite (create_slice_image_pyvista_empty _ _ _ _ _ _ _ Hempty).
  by rewrite <- app_assoc.
Qed.


(** The entry the batch holds for a locator is the one the loop body
    produced for it in the state the earlier locators left. *)
Lemma process_locators_for_obj_at
    (path out : string) (locs1 : list locator) loc (locs2 : list locator) h
    (entry : gmap string string) (h2 : history) :
  process_locator path out loc (history_after path out locs1 h)
  = (Ok entry, h2) ->
  history_after path out (locs1 ++ [loc]) h = h2
  /\ exists (results : list (gmap string string)) (h' : history),
       process_locators_for_obj path (locs1 ++ loc :: locs2) out h
       = (Ok (true, results), h')
       /\ length results = length (locs1 ++ loc :: locs2)
       /\ results !! length locs1 = Some entry.
Proof.
  intros Hbody.
  destruct (process_loop_at path out locs1 loc locs2 h)
    as (results1 & results2 & entry' & h' & Hbody' & Hrun & Hlen1 & Hlen2).
  rewrite Hbody in Hbody'. injection Hbody' as <- Hafter.
  split; [done |].
  exists (results1 ++ entry :: results2), h'.
  rewrite process_locators_for_obj_unfold, Hrun.
  split; [done |]. split.
  - rewrite !length_app. simpl. lia.
  - rewrite <- Hlen1. by rewrite list_lookup_middle.
Qed.

(** *** The claims about the batch *)

(** On typed records: the results list has exactly one entry per input
    locator, in input order.  Each entry carries the locator's id, or a
    generated placeholder id when the locator has none, and is either a
    success with an image path or an error with a message, whatever the
    outside world does while the locators are processed. *)
Theorem process_locators_for_obj_results
    (path : string) locs (out : string) h :
  exists (results : list (gmap string string)) (h' : history),
    process_locators_for_obj path locs out h = (Ok (true, results), h')
    /\ length results = length locs
    /\ Forall2
         (fun loc entry =>
            match loc_id loc with
            | Some id => entry !! "id" = Some id
            | None =>
                exists n : nat,
                  entry !! "id" = Some ("unknown_loc_" +:+ pretty n)
            end
            /\ ((entry !! "status" = Some "success"
                 /\ is_Some (entry !! "image_path"))
                \/ (entry !! "status" = Some "error"
                    /\ is_Some (entry !! "message"))))
         locs results.
Proof.
  destruct (process_loop_entries path out locs h)
    as (results & h' & Hrun & Hall).
  exists results, h'.
  rewrite process_locators_for_obj_unfold, Hrun.
  split; [done |]. split.
  - symmetry. by eapply Forall2_length.
  - eapply Forall2_impl; [exact Hall |].
    intros loc entry (id & Hid & Hentry).
    destruct Hentry as [-> | ->].
    + destruct (success_entry_lookup id out) as (Hi & Hs & Hp & _).
      split.
      * destruct (loc_id loc); [by subst |].
        destruct Hid as [n ->]. by exists n.
      * left. rewrite Hs, Hp. eauto.
    + destruct (error_entry_lookup id) as (Hi & Hs & Hm & _).
      split.
      * destruct (loc_id loc); [by subst |].
        destruct Hid as [n ->]. by exists n.
      * right. rewrite Hs, Hm. eauto.
Qed.

(** C3.  When the slice at a locator's plane has no points,
    [create_slice_image_pyvista] returns [True] having only read the mesh
    and sliced it, and the batch holds a success entry for that
    locator. *)
Theorem empty_cross_section_is_success
    (path out : string) (locs1 : list locator) loc (locs2 : list locator) h :
  let h1 := history_after path out locs1 h in
  let entered := h1 ++ [EvRandint (randint h1)] in
  let id := locator_id_at h1 loc in
  empty_cross_section path (locator_origin loc) (locator_normal loc) entered ->
  create_slice_image_pyvista path (locator_origin loc) (locator_normal loc)
                             id 200 out entered
  = (Ok true,
     entered ++ [EvReadMesh path;
                 EvSlice (locator_normal loc) (locator_origin loc)])
  /\ exists (results : list (gmap string string)) (h' : history),
       process_locators_for_obj path (locs1 ++ loc :: locs2) out h
       = (Ok (true, results), h')
       /\ results !! length locs1 = Some (success_entry id out)
       /\ success_entry id out !! "status" = Some "success".
Proof.
  intros h1 entered id Hempty. split.
  - by apply create_slice_image_pyvista_empty.
  - destruct (process_locators_for_obj_at path out locs1 loc locs2 h _ _
                (process_locator_empty path out loc h1 Hempty))
      as (_ & results & h' & Hrun & _ & Hentry).
    exists results, h'. split; [done |]. split; [done |].
    apply success_entry_lookup.
Qed.

(** C9.  Every success entry carries
    [os.path.join(output_dir, locator_id + ".png")] as its image path.
    That holds for an empty cross-section too, where the locator's turn
    consists of the random draw, the read and the slice: no screenshot is
    taken, so nothing is written at the reported path. *)
Theorem success_entry_image_path (path out : string) :
  (forall locs h,
     exists (results : list (gmap string string)) (h' : history),
       process_locators_for_obj path locs out h = (Ok (true, results), h')
       /\ Forall
            (fun entry =>
               entry !! "status" = Some "success" ->
               exists id : string,
                 entry !! "id" = Some id
                 /\ entry !! "image_path"
                    = Some (path_join out (id +:+ ".png")))
            results)
  /\ (forall (locs1 : list locator) loc (locs2 : list locator) h,
        let h1 := history_after path out locs1 h in
        let id := locator_id_at h1 loc in
        empty_cross_section path (locator_origin loc) (locator_normal loc)
                            (h1 ++ [EvRandint (randint h1)]) ->
        (exists (results : list (gmap string string)) (h' : history)
                (entry : gmap string string),
           process_locators_for_obj path (locs1 ++ loc :: locs2) out h
           = (Ok (true, results), h')
           /\ results !! length locs1 = Some entry
           /\ entry !! "status" = Some "success"
           /\ entry !! "image_path" = Some (path_join out (id +:+ ".png")))
        /\ exists added : list event,
             history_after path out (locs1 ++ [loc]) h = h1 ++ added
             /\ forall p : string, EvScreenshot p ∉ added).
Proof.
  split.
  - intros locs h.
    destruct (process_loop_entries path out locs h)
      as (results & h' & Hrun & Hall).
    exists results, h'.
    rewrite process_locators_for_obj_unfold, Hrun. split; [done |].
    apply Forall2_Forall_r with (P := is_entry_for out) (l := locs);
      [done |].
    apply Forall_forall. intros entry _ loc (id & _ & Hentry) Hstatus.
    destruct Hentry as [-> | ->].
    + exists id. destruct (success_entry_lookup id out) as (Hi & _ & Hp & _).
      done.
    + destruct (error_entry_lookup id) as (_ & Hs & _).
      rewrite Hs in Hstatus. discriminate.
  - intros locs1 loc locs2 h h1 id Hempty.
    destruct (process_locators_for_obj_at path out locs1 loc locs2 h _ _
                (process_locator_empty path out loc h1 Hempty))
      as (Hafter & results & h' & Hrun & _ & Hentry).
    split.
    + exists results, h', (success_entry id out).
      destruct (success_entry_lookup id out) as (_ & Hs & Hp & _).
      done.
    + eexists. split; [exact Hafter |].
      intros p Hin. rewrite !elem_of_cons, elem_of_nil in Hin.
      destruct Hin as [Hin | [Hin | [Hin | []]]]; discriminate.
Qed.

End WithExternal.

(** *** The batch on the cube *)

Import CubeWorld.

(** Three locators, the second of which meets a slice that raises: three
    entries in input order, one error between two successes.  The third
    locator has no id and gets a placeholder; its slice is empty. *)
Example batch_with_one_failure :
  (process_locators_for_obj cube_path
     [loc_named "PV_TEST_001"; loc_named "PV_TEST_002"; loc_anonymous]
     "out" []).1
  = Ok (true,
        [success_entry "PV_TEST_001" "out";
         error_entry "PV_TEST_002";
         success_entry "unknown_loc_10" "out"]).
Proof. vm_compute. reflexivity. Qed.

Lemma third_slice_is_empty :
  let h1 :=
    history_after cube_path "out"
      [loc_named "PV_TEST_001"; loc_named "PV_TEST_002"] [] in
  empty_cross_section cube_path (locator_origin loc_anonymous)
    (locator_normal loc_anonymous) (h1 ++ [EvRandint (randint h1)]).
Proof.
  intros h1. exists 8, [].
  split; [reflexivity |]. split; [simpl; lia |].
  split; [vm_compute; reflexivity | reflexivity].
Defined.

Lemma empty_cross_section_is_success_witness :
  exists (results : list (gmap string string)) (h' : history),
    process_locators_for_obj cube_path
      [loc_named "PV_TEST_001"; loc_named "PV_TEST_002"; loc_anonymous]
      "out" []
    = (Ok (true, results), h')
    /\ results !! 2 = Some (success_entry "unknown_loc_10" "out").
Proof.
  destruct (empty_cross_section_is_success cube_path "out"
              [loc_named "PV_TEST_001"; loc_named "PV_TEST_002"]
              loc_anonymous [] [] third_slice_is_empty)
    as (_ & results & h' & Hrun & Hentry & _).
  exists results, h'. split; [exact Hrun | exact Hentry].
Defined.

Lemma success_entry_image_path_witness :
  exists (results : list (gmap string string)) (h' : history)
         (entry : gmap string string),
    process_locators_for_obj cube_path
      [loc_named "PV_TEST_001"; loc_named "PV_TEST_002"; loc_anonymous]
      "out" []
    = (Ok (true, results), h')
    /\ results !! 2 = Some entry
    /\ entry !! "status" = Some "success"
    /\ entry !! "image_path" = Some "out/unknown_loc_10.png".
Proof.
  destruct (proj2 (success_entry_image_path cube_path "out")
              [loc_named "PV_TEST_001"; loc_named "PV_TEST_002"]
              loc_anonymous [] [] third_slice_is_empty)
    as ((results & h' & entry & Hrun & Hentry & Hstatus & Hpath) & _).
  exists results, h', entry. repeat split; assumption.
Defined.

End SliceObjFacts.

(** ** The batch on angles as they arrive *)

Module LocatorJsonFacts.

Import Geometry SliceObj CubeWorld SliceObjFacts.

Section WithExternal.

Context {E : External}.

Implicit Types (h : history) (loc : locator_json) (locs : list locator_json).

Lemma calculate_plane_normal_json_numbers
    (rx ry rz : option json_scalar) :
  is_number rx = true -> is_number ry = true ->
  calculate_plane_normal_json (default (JNum 0) rx) (default (JNum 0) ry)
                              (default (JNum 0) rz)
  = Some (calculate_plane_normal (default 0%R (number_of rx))
                                 (default 0%R (number_of ry))
                                 (default 0%R (number_of rz))).
Proof. destruct rx as [[] |], ry as [[] |]; done. Qed.

Lemma calculate_plane_normal_json_raises
    (rx ry rz : option json_scalar) :
  is_number rx = false \/ is_number ry = false ->
  calculate_plane_normal_json (default (JNum 0) rx) (default (JNum 0) ry)
                              (default (JNum 0) rz)
  = None.
Proof.
  destruct rx as [[] |], ry as [[] |]; simpl; intros [H | H];
    done.
Qed.

(** With numeric angles the loop body is the one of the typed record. *)
Lemma process_locator_json_numeric (path out : string) loc h :
  numeric_angles loc ->
  process_locator_json path out loc h
  = process_locator path out (typed_of loc) h.
Proof.
  intros [Hrx Hry].
  unfold process_locator_json, process_locator, bind, locator_normal,
    locator_origin.
  destruct (np_random_randint h) as [[n |] h1]; [| done].
  by rewrite (calculate_plane_normal_json_numbers _ _ (lj_rz loc) Hrx Hry).
Qed.

(** With an angle that is not a number the loop body raises after the
    random draw: the mesh is not read and no entry is made. *)
Lemma process_locator_json_raises (path out : string) loc h :
  is_number (lj_rx loc) = false \/ is_number (lj_ry loc) = false ->
  process_locator_json path out loc h
  = (Raise, h ++ [EvRandint (randint h)]).
Proof.
  intros Hbad.
  unfold process_locator_json, bind, np_random_randint.
  by rewrite (calculate_plane_normal_json_raises _ _ (lj_rz loc) Hbad).
Qed.


Lemma process_loop_json_results (path out : string) locs :
  forall (results : list (gmap string string)) h,
    process_loop_json path out locs results h
    = match process_loop_json path out locs [] h with
      | (Ok new, h') => (Ok (results ++ new), h')
      | (Raise, h') => (Raise, h')
      end.
Proof.
  induction locs as [| loc rest IH]; intros results h; simpl.
  - unfold ret. by rewrite app_nil_r.
  - unfold bind.
    destruct (process_locator_json path out loc h) as [[entry |] h1];
      [| done].
    rewrite (IH (results ++ [entry])), (IH ([] ++ [entry])).
    destruct (process_loop_json path out rest [] h1) as [[new |] h2];
      [| done].
    by rewrite <- app_assoc.
Qed.

(** A locator with an angle that is not a number ends the batch: the
    loop raises when its turn comes, whatever the locators after it
    are, and no results list is returned. *)
Lemma process_locators_for_obj_json_aborts
    (path out : string) (locs1 : list locator_json) loc
    (locs2 : list locator_json) h :
  Forall numeric_angles locs1 ->
  is_number (lj_rx loc) = false \/ is_number (lj_ry loc) = false ->
  exists h' : history,
    process_locators_for_obj_json path (locs1 ++ loc :: locs2) out h
    = (Raise, h').
Proof.
  intros Hgood Hbad. unfold process_locators_for_obj_json, bind.
  revert h. generalize (@nil (gmap string string)) as results.
  induction Hgood as [| loc1 rest Hloc1 _ IH]; intros results h; simpl.
  - unfold bind. rewrite (process_locator_json_raises path out loc h Hbad).
    by eauto.
  - unfold bind.
    rewrite (process_locator_json_numeric path out loc1 h Hloc1).
    destruct (process_locator_returns path out (typed_of loc1) h)
      as (entry & h1 & -> & _).
    apply IH.
Qed.

(** *** The claim about the results list *)


End WithExternal.

(** *** On the cube *)



End LocatorJsonFacts.

(** ** The handler *)

Module AppFacts.

Import Geometry SliceObj App SliceObjFacts.

Section WithExternal.

Context {E : External}.

Implicit Types (h : history) (data : gmap string field_value).

(** Once the path is resolved the handler either raises or answers 200
    with the results of the batch: the branch for a failed batch is
    never taken. *)
Lemma slice_resolved_cases (path : string) (locators_data : field_value) h :
  (exists h' : history, slice_resolved path locators_data h = (Raise, h'))
  \/ (exists (message : string) (n : nat)
             (results : list (gmap string string)) (h' : history),
        slice_resolved path locators_data h
        = (Ok (Response 200 (SliceBody message path n results)), h')).
Proof.
  unfold slice_resolved, bind, call_, call.
  destruct (os_makedirs h _); [| eauto].
  destruct locators_data as [s | l]; [unfold raise; eauto |].
  destruct (process_locators_for_obj_results path l
              (path_join (path_join base_dir "data") "generated_slices")
              (h ++ [EvMakedirs
                       (path_join (path_join base_dir "data")
                                  "generated_slices")]))
    as (results & h' & -> & _).
  unfold ret. right. eauto.
Qed.

Lemma lookup_Some_size data (key : string) (v : field_value) :
  data !! key = Some v -> bool_decide (size data = 0) = false.
Proof.
  intros Hkey. apply bool_decide_eq_false_2. intros Hsize.
  apply map_size_empty_inv in Hsize. subst data.
  by rewrite lookup_empty in Hkey.
Qed.

(** A request in which either field is absent or empty is answered 400
    and nothing else happens. *)
Lemma slice_model_endpoint_falsy_field (body : option (gmap string field_value)) h :
  match body with
  | None => True
  | Some data =>
      truthy (data !! "obj_file_path") = false
      \/ truthy (data !! "locators") = false
  end ->
  exists message : string,
    slice_model_endpoint body h
    = (Ok (Response 400 (ErrorBody message)), h).
Proof.
  intros Hfalsy. unfold slice_model_endpoint, try_except.
  destruct body as [data |]; [| unfold ret; eauto].
  case_bool_decide; [unfold ret; eauto |].
  destruct Hfalsy as [-> | ->]; simpl; unfold ret;
    rewrite ?orb_true_r; eauto.
Qed.


(** *** The claims about the handler *)


(** C8.  A request that reaches path resolution, that is, one that
    passed validation (a non-empty path string and a non-empty value
    under ["locators"]), and whose path is found by none of the three
    rules is answered 404, and the state of the world is as before: no
    directory was made, no mesh read, no locator processed. *)
Theorem unresolvable_path_is_404
    data h (obj_file_path_input : string) (locators_data : field_value) :
  data !! "obj_file_path" = Some (FStr obj_file_path_input) ->
  obj_file_path_input <> EmptyString ->
  data !! "locators" = Some locators_data ->
  truthy (Some locators_data) = true ->
  unresolvable h obj_file_path_input ->
  exists message : string,
    slice_model_endpoint (Some data) h
    = (Ok (Response 404 (ErrorBody message)), h).
Proof.
  intros Hpath Hne Hlocs Htruthy (Habs & Hroot & Hdata).
  unfold slice_model_endpoint, try_except.
  rewrite (lookup_Some_size data _ _ Hpath).
  rewrite Hpath, Hlocs, Htruthy. simpl.
  rewrite (bool_decide_eq_false_2 _ Hne). simpl.
  unfold bind, os_path_exists, ret.
  destruct (isabs obj_file_path_input) eqn:Hisabs; simpl.
  - destruct (path_exists h obj_file_path_input) eqn:Hexists.
    + destruct Habs. done.
    + by eauto.
  - rewrite Hroot, Hdata. by eauto.
Qed.

(** C10.  A request whose ["locators"] is the empty list, or whose
    ["obj_file_path"] is the empty string, is answered 400 with the
    message for a missing field, and the state of the world is as
    before.  The same request without that field is answered 400 too, and
    with the very same answer unless removing the field leaves the body
    empty. *)
Theorem empty_field_is_rejected data h (key : string) :
  (key = "locators" /\ data !! key = Some (FLocators []))
  \/ (key = "obj_file_path" /\ data !! key = Some (FStr EmptyString)) ->
  slice_model_endpoint (Some data) h
  = (Ok (Response 400 (ErrorBody "Missing obj_file_path or locators_data")),
     h)
  /\ (exists message : string,
        slice_model_endpoint (Some (delete key data)) h
        = (Ok (Response 400 (ErrorBody message)), h))
  /\ (size (delete key data) <> 0 ->
      slice_model_endpoint (Some (delete key data)) h
      = slice_model_endpoint (Some data) h).
Proof.
  intros Hkey.
  assert (Hsize : bool_decide (size data = 0) = false)
    by (destruct Hkey as [[_ H] | [_ H]]; by eapply lookup_Some_size).
  assert (Hfalsy : truthy (data !! "obj_file_path") = false
                   \/ truthy (data !! "locators") = false)
    by (destruct Hkey as [[-> ->] | [-> ->]]; by eauto).
  assert (Hfalsy' : truthy (delete key data !! "obj_file_path") = false
                    \/ truthy (delete key data !! "locators") = false)
    by (destruct Hkey as [[-> _] | [-> _]];
        rewrite lookup_delete_eq; by eauto).
  assert (Hmissing : forall data',
            bool_decide (size data' = 0) = false ->
            truthy (data' !! "obj_file_path") = false
            \/ truthy (data' !! "locators") = false ->
            slice_model_endpoint (Some data') h
            = (Ok (Response 400
                     (ErrorBody "Missing obj_file_path or locators_data")),
               h)).
  { intros data' Hsize' [Hf | Hf];
      unfold slice_model_endpoint, try_except;
      rewrite Hsize', Hf; simpl; rewrite ?orb_true_r; done. }
  split; [by apply Hmissing |]. split.
  - by apply (slice_model_endpoint_falsy_field (Some (delete key data))).
  - intros Hnonempty.
    rewrite (Hmissing data Hsize Hfalsy).
    apply Hmissing; [| done].
    by apply bool_decide_eq_false_2.
Qed.

End WithExternal.

(** *** The handler on the cube *)

Import CubeWorld.

Lemma missing_obj_unresolvable : unresolvable [] "missing.obj".
Proof.
  split; [| split]; [| reflexivity | reflexivity].
  intros [Habs _]. discriminate Habs.
Defined.


(** Validation comes before resolution: a request with an unresolvable
    path and no locators is answered 400. *)
Lemma unresolvable_path_without_locators_is_400 :
  request_without_locators !! "obj_file_path" = Some (FStr "missing.obj")
  /\ unresolvable [] "missing.obj"
  /\ slice_model_endpoint (Some request_without_locators) []
     = (Ok (Response 400
              (ErrorBody "Missing obj_file_path or locators_data")),
        []).
Proof.
  split; [reflexivity |]. split; [exact missing_obj_unresolvable |].
  vm_compute. reflexivity.
Qed.

Lemma unresolvable_path_is_404_witness :
  exists message : string,
    slice_model_endpoint (Some request_missing_file) []
    = (Ok (Response 404 (ErrorBody message)), []).
Proof.
  apply (unresolvable_path_is_404 request_missing_file [] "missing.obj"
           (FLocators [loc_named "PV_TEST_001"])).
  - reflexivity.
  - discriminate.
  - reflexivity.
  - reflexivity.
  - exact missing_obj_unresolvable.
Defined.

Lemma empty_field_is_rejected_witness :
  slice_model_endpoint (Some request_empty_locators) []
  = (Ok (Response 400 (ErrorBody "Missing obj_file_path or locators_data")),
     []).
Proof.
  refine (proj1 (empty_field_is_rejected request_empty_locators []
                   "locators" _)).
  left. split; reflexivity.
Defined.

(** What the handler answers on the cube: 200 for a request that names
    the mesh relative to the [data] directory, with the output directory
    made first. *)
Example cube_request_is_200 :
  status_code
    <$> match (slice_model_endpoint
                 (Some (<["obj_file_path" := FStr "test_cube.obj"]>
                          {[ "locators" :=
                               FLocators [loc_named "PV_TEST_001"] ]}))
                 []).1 with
        | Ok resp => Some resp
        | Raise => None
        end
  = Some 200.
Proof. vm_compute. reflexivity. Qed.

End AppFacts.

(** * Further properties *)

(** ** The geometric helpers *)

Module GeometryMore.

Import Geometry SliceObj GeometryFacts.

Local Open Scope R_scope.

(** The components of the normal.  The rotated vector has length 1, so
    the test [norm > 0] of line 149 always holds and the division changes
    nothing. *)
Theorem plane_normal_components (rx ry rz : R) :
  let rotated :=
    matvec (rot_mat_x (deg2rad rx))
           (matvec (rot_mat_y (deg2rad ry)) (V3 0 0 1)) in
  0 < linalg_norm rotated
  /\ calculate_plane_normal rx ry rz = rotated
  /\ vx (calculate_plane_normal rx ry rz) = sin (deg2rad ry)
  /\ vy (calculate_plane_normal rx ry rz)
     = - sin (deg2rad rx) * cos (deg2rad ry)
  /\ vz (calculate_plane_normal rx ry rz)
     = cos (deg2rad rx) * cos (deg2rad ry).
Proof.
  intros rotated. unfold rotated.
  rewrite calculate_plane_normal_closed_form, rotated_vector.
  rewrite rotated_vector_norm. simpl. repeat split; lra.
Qed.

Lemma deg2rad_plus_360 (d : R) : deg2rad (d + 360) = deg2rad d + 2 * PI.
Proof. unfold deg2rad. field. Qed.

Lemma sin_plus_2PI (x : R) : sin (x + 2 * PI) = sin x.
Proof. rewrite sin_plus, sin_2PI, cos_2PI. ring. Qed.

Lemma cos_plus_2PI (x : R) : cos (x + 2 * PI) = cos x.
Proof. rewrite cos_plus, sin_2PI, cos_2PI. ring. Qed.

(** In exact arithmetic, a full turn of either angle leaves the normal
    as it was: the angles are not restricted to one turn. *)
Theorem plane_normal_full_turn (rx ry rz : R) :
  calculate_plane_normal (rx + 360) ry rz = calculate_plane_normal rx ry rz
  /\ calculate_plane_normal rx (ry + 360) rz = calculate_plane_normal rx ry rz.
Proof.
  rewrite !calculate_plane_normal_closed_form, !deg2rad_plus_360.
  by rewrite !sin_plus_2PI, !cos_plus_2PI.
Qed.

(** In exact arithmetic, half a turn more about X turns the normal half
    a turn about the X axis: [(x, y, z)] becomes [(x, -y, -z)]. *)
Theorem plane_normal_half_turn_x (rx ry rz : R) :
  calculate_plane_normal (rx + 180) ry rz
  = V3 (vx (calculate_plane_normal rx ry rz))
       (- vy (calculate_plane_normal rx ry rz))
       (- vz (calculate_plane_normal rx ry rz)).
Proof.
  rewrite !calculate_plane_normal_closed_form. simpl.
  replace (deg2rad (rx + 180)) with (deg2rad rx + PI)
    by (unfold deg2rad; field).
  rewrite neg_sin, neg_cos. apply vec3_eq; ring.
Qed.

(** The up vector has length 1 whatever the normal is. *)
Theorem camera_up_vector_unit (plane_normal : vec3) :
  linalg_norm (calculate_camera_up_vector plane_normal) = 1.
Proof.
  unfold calculate_camera_up_vector.
  destruct (_ || _); [apply linalg_norm_axis_y |].
  destruct (_ || _); [apply linalg_norm_unit; lra |].
  cbv zeta. case_bool_decide as Hsmall.
  - rewrite linalg_norm_axis_y, vdiv_1. apply linalg_norm_axis_y.
  - apply linalg_norm_vdiv.
    pose proof (linalg_norm_nonneg (cross plane_normal (V3 0 0 1))). lra.
Qed.


(** In exact arithmetic, the camera of a batch slice sits 100 units from
    the plane origin, half the fixed radius of 200, whatever the locator
    is. *)
Theorem camera_distance (loc_data : locator) :
  let plane_origin := locator_origin loc_data in
  let plane_normal := locator_normal loc_data in
  let position :=
    vadd plane_origin (vscale (vscale plane_normal 200) 0.5) in
  linalg_norm (vsub position plane_origin) = 100.
Proof.
  intros plane_origin plane_normal position.
  assert (Hunit : linalg_norm plane_normal = 1).
  { unfold plane_normal, locator_normal.
    rewrite calculate_plane_normal_closed_form. apply rotated_vector_norm. }
  pose proof (linalg_norm_sqr plane_normal) as Hsqr. rewrite Hunit in Hsqr.
  unfold position. clearbody plane_normal plane_origin.
  destruct plane_normal as [a b c], plane_origin as [x y z].
  unfold linalg_norm, vsub, vadd, vscale; simpl in *.
  assert (Hhalf : 0.5 = / 2) by lra. rewrite Hhalf.
  replace ((x + a * 200 * / 2 - x) * (x + a * 200 * / 2 - x)
           + (y + b * 200 * / 2 - y) * (y + b * 200 * / 2 - y)
           + (z + c * 200 * / 2 - z) * (z + c * 200 * / 2 - z))
    with (100 * 100 * (a * a + b * b + c * c)) by field.
  rewrite <- Hsqr, Rmult_1_r, Rmult_1_r. apply sqrt_square. lra.
Qed.

End GeometryMore.

(** ** One slice and the batch *)

Module SliceObjMore.

Import Geometry SliceObj Trace SliceObjFacts.

Section WithExternal.

Context {E : External}.

Implicit Types (h : history) (loc : locator) (locs : list locator).

Ltac trace_try ok n :=
  exists ok, n;
  split; [lia |]; split; [lia |]; split;
  [ unfold render_trace; simpl; rewrite <- ?app_assoc; reflexivity
  | intros; first [discriminate | lia] ].

Ltac trace_leaf :=
  first
    [ trace_try false 1 | trace_try false 2 | trace_try true 2
    | trace_try false 3 | trace_try false 4 | trace_try false 5
    | trace_try false 6 | trace_try true 6 ].

Lemma create_slice_trace_cases
    (path : string) (origin normal : vec3) (id : string) (radius : R)
    (out : string) h :
  exists (ok : bool) (n : nat),
    1 <= n /\ n <= 6
    /\ create_slice_image_pyvista path origin normal id radius out h
       = (Ok ok, h ++ take n (render_trace path origin normal id radius out))
    /\ (ok = true -> n = 2 \/ n = 6).
Proof.
  unfold create_slice_image_pyvista, try_except, bind, pv_read, call_, call,
    ret.
  destruct (read_mesh h path) as [mesh_pv |]; [| trace_leaf].
  destruct (negb _); [trace_leaf |].
  destruct (mesh_slice _ _ _ _) as [pd |]; [| trace_leaf].
  destruct (negb _ || _); [trace_leaf |].
  cbv zeta.
  destruct (plotter_setup _ _ _ _ _ _); [| trace_leaf].
  destruct (os_makedirs _ _); [| trace_leaf].
  destruct (plotter_screenshot _ _); [| trace_leaf].
  destruct (plotter_close _); trace_leaf.
Qed.


(** What an initial part of the sequence contains. *)
Lemma take_render_trace
    (path : string) (origin normal : vec3) (id : string) (radius : R)
    (out : string) (n : nat) :
  1 <= n -> n <= 6 ->
  let part := take n (render_trace path origin normal id radius out) in
  count_events is_draw part = 0
  /\ count_events is_read part = 1
  /\ (forall p : string,
        EvScreenshot p ∈ part -> p = path_join out (id +:+ ".png"))
  /\ (forall q : string, EvMakedirs q ∈ part -> q = out)
  /\ (forall q : string, EvReadMesh q ∈ part -> q = path).
Proof.
  intros Hlo Hhi.
  destruct n as [| [| [| [| [| [| [| n]]]]]]]; try lia;
    simpl; (split; [reflexivity |]; split; [reflexivity |]);
    (split; [| split]); intros x Hin;
    rewrite ?elem_of_cons, ?elem_of_nil in Hin;
    repeat (destruct Hin as [Hin | Hin]; try discriminate Hin);
    try (by injection Hin); try done.
Qed.

(** When the mesh loads with points and the slice, the plotter, the
    directory and the screenshot all succeed on a slice with points, all
    six calls are made, the screenshot at the path the success entry
    reports among them, and the value returned is whether
    [plotter.close()] succeeded. *)
Theorem create_slice_image_pyvista_renders
    (path : string) (origin normal : vec3) (id : string) (radius : R)
    (out : string) h (mesh_pv : mesh) (pd : polydata) :
  let calls := render_trace path origin normal id radius out in
  read_mesh h path = Some mesh_pv ->
  0 < mesh_n_points mesh_pv ->
  mesh_slice (h ++ take 1 calls) mesh_pv normal origin = Some pd ->
  polydata_truthy pd = true ->
  polydata_points pd <> [] ->
  plotter_setup (h ++ take 2 calls) pd origin
                (vadd origin (vscale (vscale normal radius) 0.5%R))
                (calculate_camera_up_vector normal) radius = true ->
  os_makedirs (h ++ take 3 calls) out = true ->
  plotter_screenshot (h ++ take 4 calls) (path_join out (id +:+ ".png"))
  = true ->
  create_slice_image_pyvista path origin normal id radius out h
  = (Ok (plotter_close (h ++ take 5 calls)), h ++ calls).
Proof.
  intros calls Hread Hpts Hslice Htruthy Hnonempty Hsetup Hdirs Hshot.
  unfold calls, render_trace in *. simpl in *.
  unfold create_slice_image_pyvista, try_except, bind, pv_read, call_, call,
    ret.
  rewrite Hread. apply Nat.ltb_lt in Hpts. rewrite Hpts. simpl.
  rewrite Hslice, Htruthy. simpl.
  destruct (polydata_points pd) as [| pt pts] eqn:Hpd; [done |]. simpl.
  rewrite <- ?app_assoc. simpl.
  rewrite Hsetup. rewrite <- ?app_assoc. simpl.
  rewrite Hdirs. rewrite <- ?app_assoc. simpl.
  rewrite Hshot. rewrite <- ?app_assoc. simpl.
  destruct (plotter_close _); by rewrite <- ?app_assoc.
Qed.

(** A mesh without points gives [False] after the read: it is never
    sliced, and the locator gets an error entry. *)
Theorem empty_mesh_is_error (path out : string) loc h (mesh_pv : mesh) :
  read_mesh (h ++ [EvRandint (randint h)]) path = Some mesh_pv ->
  mesh_n_points mesh_pv = 0 ->
  process_locator path out loc h
  = (Ok (error_entry (locator_id_at h loc)),
     h ++ [EvRandint (randint h); EvReadMesh path]).
Proof.
  intros Hread Hpts. rewrite process_locator_unfold.
  unfold create_slice_image_pyvista, try_except, bind, pv_read, ret.
  rewrite Hread, Hpts. simpl. by rewrite <- app_assoc.
Qed.

(** *** One locator and the batch, call by call *)

Lemma process_locator_trace (path out : string) loc h :
  exists (ok : bool) (n : nat),
    1 <= n /\ n <= 6
    /\ process_locator path out loc h
       = (Ok (if ok then success_entry (locator_id_at h loc) out
              else error_entry (locator_id_at h loc)),
          h ++ EvRandint (randint h)
               :: take n (render_trace path (locator_origin loc)
                            (locator_normal loc) (locator_id_at h loc)
                            200 out)).
Proof.
  rewrite process_locator_unfold.
  destruct (create_slice_trace_cases path (locator_origin loc)
              (locator_normal loc) (locator_id_at h loc) 200 out
              (h ++ [EvRandint (randint h)]))
    as (ok & n & Hlo & Hhi & -> & _).
  exists ok, n. split; [done |]. split; [done |].
  rewrite <- app_assoc. by destruct ok.
Qed.

Lemma count_events_app (kind : event -> bool) (a b : list event) :
  count_events kind (a ++ b) = count_events kind a + count_events kind b.
Proof. unfold count_events. by rewrite List.filter_app, length_app. Qed.

Lemma entry_id_lookup (ok : bool) (id out : string) :
  (if ok then success_entry id out else error_entry id) !! "id" = Some id.
Proof.
  destruct ok; [apply success_entry_lookup | apply error_entry_lookup].
Qed.

Lemma process_loop_trace (path out : string) locs :
  forall h,
    exists (results : list (gmap string string)) (added : list event),
      process_loop path out locs [] h = (Ok results, h ++ added)
      /\ length results = length locs
      /\ count_events is_draw added = length locs
      /\ count_events is_read added = length locs
      /\ (forall p : string,
            EvScreenshot p ∈ added ->
            exists (entry : gmap string string) (id : string),
              entry ∈ results
              /\ entry !! "id" = Some id
              /\ p = path_join out (id +:+ ".png"))
      /\ (forall q : string, EvMakedirs q ∈ added -> q = out)
      /\ (forall q : string, EvReadMesh q ∈ added -> q = path).
Proof.
  induction locs as [| loc rest IH]; intros h.
  - exists [], []. simpl. unfold ret. rewrite app_nil_r.
    repeat split; try done; intros x Hin; by apply elem_of_nil in Hin.
  - simpl. unfold bind.
    destruct (process_locator_trace path out loc h)
      as (ok & n & Hlo & Hhi & ->).
    rewrite process_loop_results.
    set (id := locator_id_at h loc).
    set (part := take n (render_trace path (locator_origin loc)
                           (locator_normal loc) id 200 out)).
    destruct (take_render_trace path (locator_origin loc)
                (locator_normal loc) id 200 out n Hlo Hhi)
      as (Hdraws & Hreads & Hshots & Hdirs & Hpaths).
    fold part in Hdraws, Hreads, Hshots, Hdirs, Hpaths.
    destruct (IH (h ++ EvRandint (randint h) :: part))
      as (results & added & -> & Hlen & Hd & Hr & Hs & Hm & Hp).
    set (entry := if ok then success_entry id out else error_entry id).
    exists (entry :: results), (EvRandint (randint h) :: part ++ added).
    split; [by rewrite <- app_assoc |].
    split; [simpl; by rewrite Hlen |].
    split.
    { change (EvRandint (randint h) :: part ++ added)
        with ([EvRandint (randint h)] ++ part ++ added).
      rewrite !count_events_app, Hdraws, Hd. reflexivity. }
    split.
    { change (EvRandint (randint h) :: part ++ added)
        with ([EvRandint (randint h)] ++ part ++ added).
      rewrite !count_events_app, Hreads, Hr. reflexivity. }
    split; [| split].
    + intros p Hin. rewrite elem_of_cons, elem_of_app in Hin.
      destruct Hin as [Hin | [Hin | Hin]]; [discriminate Hin | |].
      * exists entry, id. split; [apply list_elem_of_here |].
        split; [apply entry_id_lookup | by apply Hshots].
      * destruct (Hs p Hin) as (entry' & id' & Hin' & Hid' & Hp').
        exists entry', id'. split; [by apply list_elem_of_further | done].
    + intros q Hin. rewrite elem_of_cons, elem_of_app in Hin.
      destruct Hin as [Hin | [Hin | Hin]]; [discriminate Hin | |]; eauto.
    + intros q Hin. rewrite elem_of_cons, elem_of_app in Hin.
      destruct Hin as [Hin | [Hin | Hin]]; [discriminate Hin | |]; eauto.
Qed.




(** *** Ids and image paths *)

Lemma isabs_append (a b : string) :
  a <> EmptyString -> isabs (a +:+ b) = isabs a.
Proof. destruct a as [| c rest]; [done | reflexivity]. Qed.

(** The image path of a success entry lies under [output_dir] only for
    an id that does not start with a separator: for an id that is an
    absolute path, [os.path.join] drops [output_dir] and the image path is
    the id itself with [.png] added. *)
Theorem image_path_of_id (id out : string) :
  (isabs id = true ->
   success_entry id out !! "image_path" = Some (id +:+ ".png"))
  /\ (isabs id = false ->
      exists sep : string,
        (sep = EmptyString \/ sep = "/")
        /\ success_entry id out !! "image_path"
           = Some (out +:+ sep +:+ id +:+ ".png")).
Proof.
  destruct (success_entry_lookup id out) as (_ & _ & -> & _).
  unfold path_join. split.
  - intros Habs. rewrite isabs_append by (by destruct id).
    by rewrite Habs.
  - intros Hrel.
    assert (Hrel' : isabs (id +:+ ".png") = false).
    { destruct id as [| c rest]; [reflexivity |].
      by rewrite isabs_append. }
    rewrite Hrel'.
    destruct (_ || _); [exists EmptyString | exists "/"];
      (split; [by eauto | reflexivity]).
Qed.

(** Two locators without an id get the same placeholder, and with it the
    same image path, exactly when their two random draws are equal:
    nothing else keeps the placeholders of a batch apart. *)
Theorem placeholder_ids_equal_iff (h1 h2 : history) (loc1 loc2 : locator) :
  loc_id loc1 = None ->
  loc_id loc2 = None ->
  (locator_id_at h1 loc1 = locator_id_at h2 loc2 <-> randint h1 = randint h2)
  /\ (randint h1 = randint h2 ->
      forall out : string,
        success_entry (locator_id_at h1 loc1) out !! "image_path"
        = success_entry (locator_id_at h2 loc2) out !! "image_path").
Proof.
  intros Hid1 Hid2. unfold locator_id_at. rewrite Hid1, Hid2. simpl.
  split.
  - split.
    + intros Heq. simpl in Heq. injection Heq as Heq.
      change (pretty (randint h1) = pretty (randint h2)) in Heq.
      by apply (inj pretty) in Heq.
    + by intros ->.
  - by intros ->.
Qed.

End WithExternal.

(** *** On the cube *)

Import CubeWorld.

(** With a [plotter.close()] that raises, the first locator of a request
    has its six calls made, screenshot included, and [False] returned. *)
Lemma create_slice_image_pyvista_renders_witness :
  @create_slice_image_pyvista (cube_world_with true false) cube_path
    (V3 0 0 0) (V3 0 0 1) "PV_TEST_001" 200 "out" []
  = (Ok false,
     [] ++ render_trace cube_path (V3 0 0 0) (V3 0 0 1) "PV_TEST_001" 200
                        "out").
Proof.
  apply (@create_slice_image_pyvista_renders (cube_world_with true false)
           cube_path (V3 0 0 0) (V3 0 0 1) "PV_TEST_001" 200 "out" []
           8 [V3 0 0 0; V3 0 0 0]).
  - reflexivity.
  - simpl. lia.
  - reflexivity.
  - reflexivity.
  - discriminate.
  - reflexivity.
  - reflexivity.
  - reflexivity.
Defined.

Lemma empty_mesh_is_error_witness :
  @process_locator empty_mesh_world cube_path "out"
    (loc_named "PV_TEST_001") []
  = (Ok (error_entry "PV_TEST_001"),
     [] ++ [EvRandint 0; EvReadMesh cube_path]).
Proof.
  apply (@empty_mesh_is_error empty_mesh_world cube_path "out"
           (loc_named "PV_TEST_001") [] 0); reflexivity.
Defined.

Lemma image_path_of_id_witness :
  success_entry "/tmp/x" "out" !! "image_path" = Some "/tmp/x.png".
Proof. apply (proj1 (image_path_of_id "/tmp/x" "out")). reflexivity. Defined.

Lemma placeholder_ids_equal_iff_witness :
  @locator_id_at cube_world [EvClose] loc_anonymous
  = @locator_id_at cube_world [EvRandint 7] loc_anonymous.
Proof.
  apply (proj1 (@placeholder_ids_equal_iff cube_world [EvClose]
                  [EvRandint 7] loc_anonymous loc_anonymous
                  eq_refl eq_refl)).
  reflexivity.
Defined.

End SliceObjMore.

(** ** The handler *)

Module AppMore.

Import Geometry SliceObj App Trace SliceObjFacts AppFacts SliceObjMore.

Section WithExternal.

Context {E : External}.

Implicit Types (h : history) (data : gmap string field_value).

(** A request that passes validation is answered from the resolved path
    alone. *)
Lemma slice_model_endpoint_valid
    data h (p : string) (locators_data : field_value) :
  valid_request data p locators_data ->
  slice_model_endpoint (Some data) h
  = match resolve_obj_path h p with
    | Some actual =>
        try_except (slice_resolved actual locators_data) (ret unexpected) h
    | None =>
        (Ok (Response 404
               (ErrorBody
                  (if isabs p
                   then "OBJ file not found at absolute path: " +:+ p
                   else "OBJ file not found at '" +:+ p +:+ "', '"
                        +:+ path_join base_dir p +:+ "', or '"
                        +:+ path_join (path_join base_dir "data") p
                        +:+ "'"))),
         h)
    end.
Proof.
  intros (Hpath & Hne & Hlocs & Htruthy).
  unfold slice_model_endpoint, resolve_obj_path, try_except.
  rewrite (lookup_Some_size data _ _ Hpath).
  rewrite Hpath, Hlocs, Htruthy. simpl.
  rewrite (bool_decide_eq_false_2 _ Hne). simpl.
  unfold bind, os_path_exists, ret.
  destruct (isabs p); simpl.
  - by destruct (path_exists h p).
  - destruct (path_exists h (path_join base_dir p)); [done |].
    by destruct (path_exists h (path_join (path_join base_dir "data") p)).
Qed.


(** What the handler does after the directory was made. *)
Lemma slice_resolved_run (actual : string) (l : list locator) h :
  os_makedirs h output_image_dir = true ->
  exists (results : list (gmap string string)) (added : list event),
    process_locators_for_obj actual l output_image_dir
      (h ++ [EvMakedirs output_image_dir])
    = (Ok (true, results), (h ++ [EvMakedirs output_image_dir]) ++ added)
    /\ length results = length l
    /\ slice_resolved actual (FLocators l) h
       = (Ok (Response 200
                (SliceBody ("Slicing process completed for "
                            +:+ basename actual +:+ ".")
                           actual (length l) results)),
          (h ++ [EvMakedirs output_image_dir]) ++ added).
Proof.
  intros Hdirs.
  destruct (process_loop_trace actual output_image_dir l
              (h ++ [EvMakedirs output_image_dir]))
    as (results & added & Hrun & Hlen & _).
  exists results, added.
  assert (Hbatch :
    process_locators_for_obj actual l output_image_dir
      (h ++ [EvMakedirs output_image_dir])
    = (Ok (true, results), (h ++ [EvMakedirs output_image_dir]) ++ added))
    by (by rewrite process_locators_for_obj_unfold, Hrun).
  split; [done |]. split; [done |].
  unfold slice_resolved, bind, call_, call.
  fold output_image_dir. rewrite Hdirs.
  fold output_image_dir. by rewrite Hbatch.
Qed.


(** For a request that passes validation the answer is 404 exactly when
    the path is found by none of the rules for its kind: itself for an
    absolute path; under the base directory, then under its [data]
    subdirectory, for a relative one. *)
Theorem valid_request_404_iff
    data h (p : string) (locators_data : field_value) :
  valid_request data p locators_data ->
  (exists (resp : response) (h' : history),
     slice_model_endpoint (Some data) h = (Ok resp, h')
     /\ status_code resp = 404)
  <-> resolve_obj_path h p = None.
Proof.
  intros Hvalid.
  rewrite (slice_model_endpoint_valid data h p _ Hvalid).
  destruct (resolve_obj_path h p) as [actual |].
  - split; [| done].
    intros (resp & h' & Hrun & Hstatus). exfalso.
    unfold try_except in Hrun.
    destruct (slice_resolved_cases actual locators_data h)
      as [(h1 & Hr) | (msg & n & results & h1 & Hr)];
      rewrite Hr in Hrun; unfold ret, unexpected in Hrun;
      injection Hrun as <- _; simpl in Hstatus; discriminate.
  - split; [done |]. intros _. by eauto.
Qed.

(** When the output directory cannot be made the answer is 500 and the
    attempt to make it is all that happened: no mesh was read. *)
Theorem makedirs_failure_is_500
    data h (p actual : string) (locators_data : field_value) :
  valid_request data p locators_data ->
  resolve_obj_path h p = Some actual ->
  os_makedirs h output_image_dir = false ->
  slice_model_endpoint (Some data) h
  = (Ok unexpected, h ++ [EvMakedirs output_image_dir]).
Proof.
  intros Hvalid Hresolve Hdirs.
  rewrite (slice_model_endpoint_valid data h p _ Hvalid), Hresolve.
  unfold try_except, slice_resolved, bind, call_, call.
  fold output_image_dir. by rewrite Hdirs.
Qed.

(** Values of the wrong kind.  A string under ["locators"] passes
    validation when it is not empty: the output directory is made and the
    request then fails with 500.  A non-empty list under
    ["obj_file_path"] fails with 500 before anything is done. *)
Theorem wrong_kind_is_500 data h :
  (forall (p actual s : string),
     valid_request data p (FStr s) ->
     resolve_obj_path h p = Some actual ->
     slice_model_endpoint (Some data) h
     = (Ok unexpected, h ++ [EvMakedirs output_image_dir]))
  /\ (forall (l : list locator),
        data !! "obj_file_path" = Some (FLocators l) ->
        truthy (data !! "obj_file_path") = true ->
        truthy (data !! "locators") = true ->
        slice_model_endpoint (Some data) h = (Ok unexpected, h)).
Proof.
  split.
  - intros p actual s Hvalid Hresolve.
    rewrite (slice_model_endpoint_valid data h p _ Hvalid), Hresolve.
    unfold try_except, slice_resolved, bind, call_, call.
    fold output_image_dir.
    by destruct (os_makedirs h output_image_dir).
  - intros l Hpath Ht1 Ht2.
    unfold slice_model_endpoint, try_except.
    rewrite (lookup_Some_size data _ _ Hpath).
    rewrite Ht1, Ht2. simpl. rewrite Hpath.
    by destruct (data !! "locators").
Qed.

(** Every request is answered with one of four status codes.  A 400 or
    404 answer carries an error message and leaves the world as it was; a
    200 answer carries the slice results and comes after the output
    directory was made; a 500 answer is the generic one, and either
    nothing was done or the making of the output directory came first. *)
Theorem slice_model_endpoint_statuses
    (body : option (gmap string field_value)) h :
  exists (resp : response) (h' : history),
    slice_model_endpoint body h = (Ok resp, h')
    /\ (((status_code resp = 400 \/ status_code resp = 404)
         /\ h' = h
         /\ exists message : string, response_body resp = ErrorBody message)
        \/ (status_code resp = 200
            /\ (exists added : list event,
                  h' = h ++ EvMakedirs output_image_dir :: added)
            /\ exists (message path : string) (n : nat)
                      (results : list (gmap string string)),
                 response_body resp = SliceBody message path n results
                 /\ length results = n)
        \/ (resp = unexpected
            /\ (h' = h
                \/ exists added : list event,
                     h' = h ++ EvMakedirs output_image_dir :: added))).
Proof.
  assert (Hres : forall actual ld,
    exists resp h',
      try_except (slice_resolved actual ld) (ret unexpected) h = (Ok resp, h')
      /\ ((status_code resp = 200
           /\ (exists added, h' = h ++ EvMakedirs output_image_dir :: added)
           /\ exists message path n results,
                response_body resp = SliceBody message path n results
                /\ length results = n)
          \/ (resp = unexpected
              /\ exists added,
                   h' = h ++ EvMakedirs output_image_dir :: added))).
  { intros actual ld. unfold try_except.
    destruct (os_makedirs h output_image_dir) eqn:Hdirs.
    - destruct ld as [s | l].
      + unfold slice_resolved, bind, call_, call.
        fold output_image_dir. rewrite Hdirs. unfold raise, ret.
        eexists _, _. split; [done |]. right. split; [done |]. by exists [].
      + destruct (slice_resolved_run actual l h Hdirs)
          as (results & added & _ & Hlen & ->).
        eexists _, _. split; [done |]. left. split; [done |].
        split; [exists added; by rewrite <- app_assoc |]. by eauto 10.
    - unfold slice_resolved, bind, call_, call.
      fold output_image_dir. rewrite Hdirs. unfold ret.
      eexists _, _. split; [done |]. right. split; [done |]. by exists []. }
  destruct body as [data |];
    [| eexists _, _; split; [reflexivity |]; left; by eauto 10].
  destruct (bool_decide (size data = 0)) eqn:Hsize.
  { unfold slice_model_endpoint, try_except. rewrite Hsize.
    eexists _, _. split; [reflexivity |]. left. by eauto 10. }
  destruct (truthy (data !! "obj_file_path")) eqn:Ht1;
    [| destruct (slice_model_endpoint_falsy_field (Some data) h)
         as (msg & ->); [by left |];
       eexists _, _; split; [done |]; left; by eauto 10].
  destruct (truthy (data !! "locators")) eqn:Ht2;
    [| destruct (slice_model_endpoint_falsy_field (Some data) h)
         as (msg & ->); [by right |];
       eexists _, _; split; [done |]; left; by eauto 10].
  destruct (data !! "obj_file_path") as [[p | l] |] eqn:Hpath; [| | done].
  - destruct (data !! "locators") as [ld |] eqn:Hlocs; [| done].
    assert (Hvalid : valid_request data p ld).
    { repeat split; try done. intros ->. done. }
    rewrite (slice_model_endpoint_valid data h p ld Hvalid).
    destruct (resolve_obj_path h p) as [actual |].
    + destruct (Hres actual ld) as (resp & h' & -> & [H200 | H500]).
      * eexists _, _. split; [done |]. right. by left.
      * eexists _, _. split; [done |]. right. right.
        destruct H500 as [-> Hadded]. split; [done | by right].
    + eexists _, _. split; [done |]. left. by eauto 10.
  - unfold slice_model_endpoint, try_except.
    rewrite Hsize, Hpath, Ht2. simpl.
    assert (Hl : negb (negb (length l =? 0)) = false)
      by (simpl in Ht1; by rewrite Ht1).
    rewrite Hl. simpl.
    destruct (data !! "locators"); unfold raise, ret;
      (eexists _, _; split; [done |]; right; right; split; [done | by left]).
Qed.

(** *** The file name in the message *)

Lemma basename_from_no_sep (p : string) :
  forall current : string,
    has_sep p = false -> basename_from current p = current.
Proof.
  induction p as [| c rest IH]; intros current Hsep; simpl in *; [done |].
  apply orb_false_iff in Hsep as [Hc Hrest].
  rewrite Hc. by apply IH.
Qed.

Lemma basename_from_after_sep (a name : string) :
  forall current : string,
    has_sep name = false ->
    basename_from current (a +:+ "/" +:+ name) = name.
Proof.
  induction a as [| c rest IH]; intros current Hsep; simpl.
  - by apply basename_from_no_sep.
  - case_bool_decide; by apply IH.
Qed.

Lemma endswith_sep_split (a : string) :
  endswith_sep a = true -> exists a' : string, a = a' +:+ "/".
Proof.
  induction a as [| c rest IH]; [done |].
  destruct rest as [| c' rest'].
  - simpl. intros Hc. apply bool_decide_eq_true_1 in Hc as ->.
    by exists EmptyString.
  - intros Hend. destruct (IH Hend) as [a' Ha'].
    exists (String c a'). rewrite Ha'. reflexivity.
Qed.

Lemma has_sep_isabs (p : string) : has_sep p = false -> isabs p = false.
Proof.
  destruct p as [| c rest]; [done |]. simpl. intros Hsep.
  apply orb_false_iff in Hsep as [Hc _].
  apply bool_decide_eq_false_1 in Hc.
  destruct c as [[] [] [] [] [] [] [] []]; try done.
Qed.

Lemma basename_path_join (dir name : string) :
  has_sep name = false -> basename (path_join dir name) = name.
Proof.
  intros Hsep. unfold path_join, basename.
  rewrite (has_sep_isabs name Hsep).
  case_bool_decide as Hdir; simpl.
  - subst dir. simpl. by apply basename_from_no_sep.
  - destruct (endswith_sep dir) eqn:Hend.
    + destruct (endswith_sep_split dir Hend) as [a' ->].
      assert (Happ : (a' +:+ "/") +:+ name = a' +:+ "/" +:+ name).
      { clear. induction a' as [| c rest IH]; [done |].
        change (String c ((rest +:+ "/") +:+ name)
                = String c (rest +:+ "/" +:+ name)).
        by rewrite IH. }
      rewrite Happ. by apply basename_from_after_sep.
    + by apply basename_from_after_sep.
Qed.

(** A request that names the mesh by a bare file name, found under the
    base directory or under [data], is answered with that file name in
    the message, whichever of the two directories it was found in. *)
Theorem message_names_the_file
    data h (p actual : string) (l : list locator) :
  valid_request data p (FLocators l) ->
  has_sep p = false ->
  resolve_obj_path h p = Some actual ->
  os_makedirs h output_image_dir = true ->
  exists (results : list (gmap string string)) (h' : history),
    slice_model_endpoint (Some data) h
    = (Ok (Response 200
             (SliceBody ("Slicing process completed for " +:+ p +:+ ".")
                        actual (length l) results)),
       h').
Proof.
  intros Hvalid Hsep Hresolve Hdirs.
  assert (Hname : basename actual = p).
  { unfold resolve_obj_path in Hresolve.
    rewrite (has_sep_isabs p Hsep) in Hresolve. simpl in Hresolve.
    destruct (path_exists h (path_join base_dir p));
      [injection Hresolve as <-; by apply basename_path_join |].
    destruct (path_exists h (path_join (path_join base_dir "data") p));
      [injection Hresolve as <-; by apply basename_path_join | done]. }
  destruct (slice_resolved_run actual l h Hdirs)
    as (results & added & _ & _ & Hrun).
  exists results, ((h ++ [EvMakedirs output_image_dir]) ++ added).
  rewrite (slice_model_endpoint_valid data h p _ Hvalid), Hresolve.
  unfold try_except. by rewrite Hrun, Hname.
Qed.

End WithExternal.

(** *** On the cube *)

Import CubeWorld.

Lemma request_cube_valid :
  valid_request request_cube "test_cube.obj"
                (FLocators [loc_named "PV_TEST_001"]).
Proof. repeat split; (reflexivity || discriminate). Defined.

Lemma request_string_locators_valid :
  valid_request request_string_locators "test_cube.obj" (FStr "abc").
Proof. repeat split; (reflexivity || discriminate). Defined.

Lemma request_missing_file_valid :
  valid_request request_missing_file "missing.obj"
                (FLocators [loc_named "PV_TEST_001"]).
Proof. repeat split; (reflexivity || discriminate). Defined.


Lemma valid_request_404_iff_witness :
  exists (resp : response) (h' : history),
    @slice_model_endpoint cube_world (Some request_missing_file) []
    = (Ok resp, h')
    /\ status_code resp = 404.
Proof.
  apply (proj2 (@valid_request_404_iff cube_world request_missing_file []
                  "missing.obj" _ request_missing_file_valid)).
  reflexivity.
Defined.

Lemma makedirs_failure_is_500_witness :
  @slice_model_endpoint (cube_world_with false true) (Some request_cube) []
  = (Ok unexpected,
     [] ++ [EvMakedirs "/srv/app/data/generated_slices"]).
Proof.
  apply (@makedirs_failure_is_500 (cube_world_with false true)
           request_cube [] "test_cube.obj" cube_path _ request_cube_valid);
    reflexivity.
Defined.

Lemma wrong_kind_is_500_witness :
  @slice_model_endpoint cube_world (Some request_string_locators) []
  = (Ok unexpected,
     [] ++ [EvMakedirs "/srv/app/data/generated_slices"]).
Proof.
  apply (proj1 (@wrong_kind_is_500 cube_world request_string_locators [])
           "test_cube.obj" cube_path "abc" request_string_locators_valid).
  reflexivity.
Defined.

Lemma message_names_the_file_witness :
  exists (results : list (gmap string string)) (h' : history),
    @slice_model_endpoint cube_world (Some request_cube) []
    = (Ok (Response 200
             (SliceBody "Slicing process completed for test_cube.obj."
                        cube_path 1 results)),
       h').
Proof.
  apply (@message_names_the_file cube_world request_cube []
           "test_cube.obj" cube_path [loc_named "PV_TEST_001"]
           request_cube_valid); reflexivity.
Defined.

End AppMore.
